(** * feathers-hooks-jsonapify: the JSON API hook of [index.js]

    A shallow embedding of [index.js] and the properties of its document
    assembly: pagination links, relationship resolution, deduplication of
    included records, the plain-object serializer and the two entry points.

    Conventions of the embedding.
    - JavaScript values are the type [value]; an object is the list of its
      own enumerable properties in creation order.  Numbers are exact
      integers, printed in decimal: this is the arithmetic of the source
      on the integers a JavaScript number holds exactly ([safeInteger]),
      and the statements on the value of a sum, of a quotient or of a
      decimal form are made there.  Strings are
      sequences of 8-bit characters and case conversion is that of ASCII
      ([is_ascii]).  Members inherited from a prototype are not part of
      the embedding: a property read is that of an own property, and the
      statements that read a property by a name given in the options
      leave out the names of the members of [Object.prototype]
      ([inheritedName]).
    - A function of the source that can throw returns an [outcome]:
      [Normal] for a normal completion, [Throw] for an exception raised,
      [Unmodelled] where the source does something the embedding has no
      value for (a named property put on an array, arithmetic on values
      that are not numbers).
    - The source mutates [hook], [data] and the list of included records
      in place; here each function takes the state and returns the new one.
    - [JSON.stringify], the SHA-256 digest and the [Serializer] of the
      [jsonapi-serializer] package are collaborators outside the
      repository: they are Section variables. *)

From Stdlib Require Import List String Ascii ZArith NArith Bool Lia.
From Stdlib Require Import DecimalString Permutation.
Import ListNotations.
Local Open Scope string_scope.
Local Open Scope Z_scope.

Set Implicit Arguments.
Set Warnings "-register-all".

(** ** Sequelize metadata

    What the hook reads of a model, of an association and of the
    [$options] of an instance.  [attributes] lists the attributes in the
    order of [Object.keys(model.attributes)]; [primaryKey] is the truth
    value of the flag; [targetKey] and [foreignKey] are [None] where the
    association does not define them; [underscored] is
    [association.options.underscored]. *)

Record Attribute : Type := { primaryKey : bool }.

Record SequelizeModel : Type := {
  name : string;
  attributes : list (string * Attribute)
}.

Record Association : Type := {
  targetKey : option string;
  foreignKey : option string;
  underscored : bool
}.

Record Include : Type := {
  as_ : string;
  model : SequelizeModel;
  association : Association
}.

Record Context : Type := { include : option (list Include) }.

(** ** Values

    [VHost c] is the options object of a Sequelize instance, the one
    value of the hook that holds metadata. *)

Inductive value : Type :=
| VUndefined
| VNull
| VBool (b : bool)
| VNum (n : Z)
| VStr (s : string)
| VArr (items : list value)
| VObj (fields : list (string * value))
| VHost (c : Context).

Definition object : Type := list (string * value).

Inductive error : Type :=
| TypeError.

Inductive outcome (A : Type) : Type :=
| Normal (a : A)
| Throw (e : error)
| Unmodelled.

Arguments Normal {A} a.
Arguments Throw {A} e.
Arguments Unmodelled {A}.

Definition bind {A B : Type} (m : outcome A) (k : A -> outcome B) : outcome B :=
  match m with
  | Normal a => k a
  | Throw e => Throw e
  | Unmodelled => Unmodelled
  end.

Notation "x <- m ;; k" := (bind m (fun x => k))
  (at level 61, m at next level, right associativity).
Notation "' p <- m ;; k" := (bind m (fun z => let p := z in k))
  (at level 61, p pattern, m at next level, right associativity).

(** [forEach]: the callback threads a state and may throw. *)
Fixpoint forEach {A S : Type} (f : S -> A -> outcome S) (xs : list A) (s : S)
  : outcome S :=
  match xs with
  | [] => Normal s
  | x :: rest => s' <- f s x ;; forEach f rest s'
  end.

(** [map] with a callback that may throw. *)
Fixpoint mapM {A B : Type} (f : A -> outcome B) (xs : list A) : outcome (list B) :=
  match xs with
  | [] => Normal []
  | x :: rest => y <- f x ;; ys <- mapM f rest ;; Normal (y :: ys)
  end.

(** ** Numbers and strings *)

Definition string_of_Z (n : Z) : string := NilZero.string_of_int (Z.to_int n).

Definition truthy (v : value) : bool :=
  match v with
  | VUndefined | VNull => false
  | VBool b => b
  | VNum n => negb (n =? 0)
  | VStr s => negb (String.eqb s "")
  | VArr _ | VObj _ | VHost _ => true
  end.

Definition isArray (v : value) : bool :=
  match v with VArr _ => true | _ => false end.

Definition is_null (v : value) : bool :=
  match v with VNull => true | _ => false end.

Definition is_undefined (v : value) : bool :=
  match v with VUndefined => true | _ => false end.

Definition typeof_object (v : value) : bool :=
  match v with VNull | VArr _ | VObj _ | VHost _ => true | _ => false end.

Fixpoint join (sep : string) (parts : list string) : string :=
  match parts with
  | [] => ""
  | [p] => p
  | p :: rest => p ++ sep ++ join sep rest
  end.

(** [ToString], as applied by [+] on a string and by a computed property
    name. *)
Fixpoint to_string (v : value) : string :=
  match v with
  | VUndefined => "undefined"
  | VNull => "null"
  | VBool true => "true"
  | VBool false => "false"
  | VNum n => string_of_Z n
  | VStr s => s
  | VArr items =>
      join "," (map (fun x => match x with
                              | VUndefined | VNull => ""
                              | _ => to_string x
                              end) items)
  | VObj _ | VHost _ => "[object Object]"
  end.

(** ** Property names that are array indices *)

Definition digit_of (c : ascii) : option N :=
  let n := N_of_ascii c in
  if ((48 <=? n) && (n <=? 57))%N then Some (n - 48)%N else None.

Fixpoint digits_value (s : string) (acc : N) : option N :=
  match s with
  | EmptyString => Some acc
  | String c rest =>
      match digit_of c with
      | Some d => digits_value rest (10 * acc + d)%N
      | None => None
      end
  end.

(** The canonical decimal numerals below 2^32 - 1. *)
Definition array_index (k : string) : option N :=
  match k with
  | EmptyString => None
  | String "0" EmptyString => Some 0%N
  | String "0" _ => None
  | _ =>
      if (10 <? N.of_nat (String.length k))%N then None
      else match digits_value k 0 with
           | Some n => if (n <? 4294967295)%N then Some n else None
           | None => None
           end
  end.

(** ** Own properties *)

Fixpoint lookup (k : string) (o : object) : option value :=
  match o with
  | [] => None
  | (k', v) :: rest => if String.eqb k k' then Some v else lookup k rest
  end.

Definition has_key (k : string) (o : object) : bool :=
  match lookup k o with Some _ => true | None => false end.

(** Assignment keeps the place of a property that exists and puts a new
    one last. *)
Fixpoint put (k : string) (v : value) (o : object) : object :=
  match o with
  | [] => [(k, v)]
  | (k', v') :: rest =>
      if String.eqb k k' then (k, v) :: rest else (k', v') :: put k v rest
  end.

Definition remove (k : string) (o : object) : object :=
  filter (fun kv => negb (String.eqb k (fst kv))) o.

Fixpoint chars (s : string) : list value :=
  match s with
  | EmptyString => []
  | String c rest => VStr (String c EmptyString) :: chars rest
  end.

Definition nth_value (n : N) (items : list value) : value :=
  nth (N.to_nat n) items VUndefined.

(** [v[k]]: the own property [k] of [v], [undefined] where [v] has no
    such property.  The members that [v] inherits ([inheritedName] for an
    object) are not looked up. *)
Definition get (v : value) (k : string) : outcome value :=
  match v with
  | VUndefined | VNull => Throw TypeError
  | VBool _ | VNum _ => Normal VUndefined
  | VStr s =>
      if String.eqb k "length" then Normal (VNum (Z.of_nat (String.length s)))
      else match array_index k with
           | Some i => Normal (nth_value i (chars s))
           | None => Normal VUndefined
           end
  | VArr items =>
      if String.eqb k "length" then Normal (VNum (Z.of_nat (List.length items)))
      else match array_index k with
           | Some i => Normal (nth_value i items)
           | None => Normal VUndefined
           end
  | VObj o =>
      match lookup k o with
      | Some x => Normal x
      | None => Normal VUndefined
      end
  | VHost _ => Unmodelled
  end.

(** [v[k] = x] in strict mode. *)
Definition set (v : value) (k : string) (x : value) : outcome value :=
  match v with
  | VUndefined | VNull => Throw TypeError
  | VBool _ | VNum _ | VStr _ => Throw TypeError
  | VArr _ => Unmodelled
  | VObj o => Normal (VObj (put k x o))
  | VHost _ => Unmodelled
  end.

(** [delete v[k]] in strict mode. *)
Definition delete (v : value) (k : string) : outcome value :=
  match v with
  | VUndefined | VNull => Throw TypeError
  | VBool _ | VNum _ => Normal v
  | VStr s =>
      if String.eqb k "length" then Throw TypeError
      else match array_index k with
           | Some i => if (i <? N.of_nat (String.length s))%N
                       then Throw TypeError else Normal v
           | None => Normal v
           end
  | VArr items =>
      if String.eqb k "length" then Throw TypeError
      else match array_index k with
           | Some i => if (i <? N.of_nat (List.length items))%N
                       then Unmodelled else Normal v
           | None => Normal v
           end
  | VObj o => Normal (VObj (remove k o))
  | VHost _ => Unmodelled
  end.

(** ** [Object.keys] and [Object.assign]

    The own keys of an object come with the array indices first, in
    ascending order, then the other names in creation order. *)

Fixpoint insert_index (e : N * string) (sorted : list (N * string))
  : list (N * string) :=
  match sorted with
  | [] => [e]
  | e' :: rest =>
      if (fst e <=? fst e')%N then e :: sorted else e' :: insert_index e rest
  end.

Fixpoint index_names (names : list string) : list (N * string) :=
  match names with
  | [] => []
  | k :: rest =>
      match array_index k with
      | Some i => insert_index (i, k) (index_names rest)
      | None => index_names rest
      end
  end.

Definition other_names (names : list string) : list string :=
  filter (fun k => match array_index k with Some _ => false | None => true end)
         names.

Definition own_keys (o : object) : list string :=
  (map snd (index_names (map fst o)) ++ other_names (map fst o))%list.

Definition string_of_nat (n : nat) : string := string_of_Z (Z.of_nat n).

Fixpoint indexed (i : nat) (items : list value) : object :=
  match items with
  | [] => []
  | x :: rest => (string_of_nat i, x) :: indexed (S i) rest
  end.

(** The own enumerable properties of a value, in the order of its keys. *)
Definition own_enumerable (v : value) : object :=
  match v with
  | VObj o =>
      map (fun k => (k, match lookup k o with Some x => x | None => VUndefined end))
          (own_keys o)
  | VArr items => indexed 0 items
  | VStr s => indexed 0 (chars s)
  | _ => []
  end.

(** [Object.keys(v)] *)
Definition keys (v : value) : outcome (list string) :=
  match v with
  | VUndefined | VNull => Throw TypeError
  | VHost _ => Unmodelled
  | _ => Normal (map fst (own_enumerable v))
  end.

(** [Object.assign(target, source)] on a target that is a plain object;
    a source that is [undefined] or [null] is skipped. *)
Definition assign (target : object) (source : value) : outcome object :=
  match source with
  | VHost _ => Unmodelled
  | _ => Normal (fold_left (fun t kv => put (fst kv) (snd kv) t)
                           (own_enumerable source) target)
  end.

(** ** [dasherize] *)

Definition is_upper (c : ascii) : bool :=
  let n := N_of_ascii c in ((65 <=? n) && (n <=? 90))%N.

(** [toLowerCase] on the letters of ASCII; other characters are kept. *)
Definition toLowerCase_char (c : ascii) : ascii :=
  if is_upper c then ascii_of_N (N_of_ascii c + 32) else c.

Fixpoint toLowerCase (s : string) : string :=
  match s with
  | EmptyString => EmptyString
  | String c rest => String (toLowerCase_char c) (toLowerCase rest)
  end.

(** [s.replace(/([A-Z])/g, '-$1')] *)
Fixpoint dash_before_upper (s : string) : string :=
  match s with
  | EmptyString => EmptyString
  | String c rest =>
      if is_upper c then String "-" (String c (dash_before_upper rest))
      else String c (dash_before_upper rest)
  end.

(** [s.replace(/_/g, '-')] *)
Fixpoint underscores_to_dashes (s : string) : string :=
  match s with
  | EmptyString => EmptyString
  | String c rest =>
      String (if Ascii.eqb c "_" then "-"%char else c) (underscores_to_dashes rest)
  end.

Definition dasherize (str : string) : string :=
  let newStr :=
    match str with
    | EmptyString => EmptyString
    | String c rest => String (toLowerCase_char c) rest
    end in
  toLowerCase (dash_before_upper newStr).

(** ** The hook and its options *)

Record Options : Type := {
  identifierKey : option string;
  typeKey : option string
}.

Record Service : Type := {
  Model : option SequelizeModel;
  options : value
}.

Record Hook : Type := {
  method : string;
  path : string;
  result : value;
  service : Service
}.

Definition with_result (hook : Hook) (r : value) : Hook :=
  {| method := method hook; path := path hook; result := r;
     service := service hook |}.

(** [if (options.identifierKey)]: an option that holds a name is truthy
    when the name is not empty. *)
Definition option_set (k : option string) : bool :=
  match k with
  | Some s => negb (String.eqb s "")
  | None => false
  end.

(** The property name an option denotes when it is used as a computed key. *)
Definition key_name (k : option string) : string :=
  match k with
  | Some s => s
  | None => "undefined"
  end.

(** [hook.service.Model] as a condition; the entry points below branch on
    the model itself, which they use. *)
Definition mustParseAsSequelize (hook : Hook) : bool :=
  match Model (service hook) with Some _ => true | None => false end.

Definition byExcluded (excluded : list (option string)) (attribute : string) : bool :=
  negb (existsb (fun e => match e with
                          | Some x => String.eqb x attribute
                          | None => false
                          end) excluded).

Definition byPrimaryKey (model : SequelizeModel) (attribute : string) : bool :=
  match find (fun a => String.eqb (fst a) attribute) (attributes model) with
  | Some a => primaryKey (snd a)
  | None => false
  end.

(** The result of [jsonapify]; [related] is [None] when the property is
    not set. *)
Record Jsonapified : Type := {
  document : value;
  links : value;
  related : option (list value)
}.

(** [context.include], when it is truthy and has a length: the list that
    [forEach] walks. *)
Definition context_include (context : value) : outcome (list Include) :=
  match context with
  | VUndefined | VNull => Throw TypeError
  | VHost c => Normal (match include c with Some l => l | None => [] end)
  | VObj o =>
      match lookup "include" o with
      | None => Normal []
      | Some v =>
          if truthy v
          then match v with VArr [] => Normal [] | _ => Unmodelled end
          else Normal []
      end
  | _ => Normal []
  end.

Section Collaborators.

(** [JSON.stringify]: a string, or [undefined] for a value that has no
    JSON text. *)
Variable JSON_stringify : value -> value.

(** [crypto.createHash('sha256')], [update] and [digest('hex')]. *)
Variable sha256_hex : string -> string.

(** [new JSONAPISerializer(type, data, {topLevelLinks: {self}, attributes})]:
    the arguments are the type name, the data, the [self] link and the
    attribute names; the result is the object that [new] returns.  A call
    in which the package throws has no counterpart here: what is stated
    of a run that goes through the serializer is stated of the calls that
    return. *)
Variable JSONAPISerializer : string -> value -> string -> list string -> object.

Definition generateFauxId (data : value) : outcome string :=
  match JSON_stringify data with
  | VStr text => Normal (sha256_hex text)
  | _ => Throw TypeError
  end.

Definition relatedItem (include : Include) (record : value) : outcome value :=
  let relatedModelIdAttribute := key_name (targetKey (association include)) in
  x <- get record relatedModelIdAttribute ;;
  Normal (VObj (put relatedModelIdAttribute x
                    [("type", VStr (name (model include)))])).

Definition createRelationshipObject (include : Include) (item : value)
  : outcome value :=
  associationValue <- get item (as_ include) ;;
  if truthy associationValue && isArray associationValue then
    match associationValue with
    | VArr records => results <- mapM (relatedItem include) records ;;
                      Normal (VArr results)
    | _ => Normal VNull
    end
  else if truthy associationValue && typeof_object associationValue then
    relatedItem include associationValue
  else Normal VNull.

(** The item of a serialized collection with its [self] link:
    [Object.assign(item, {links: {self: '/' + name + '/' + item.id}})]. *)
Definition with_self_link (include : Include) (item : value) : outcome value :=
  id <- get item "id" ;;
  let self := "/" ++ name (model include) ++ "/" ++ to_string id in
  match item with
  | VObj o => Normal (VObj (put "links" (VObj [("self", VStr self)]) o))
  | _ => Unmodelled
  end.

(** One step of [context.include.forEach(parseRelationships(data, includedData))].
    [jsonapify] is the function called on the embedded value.  The field
    deleted from the embedded value is evaluated for the exception it can
    raise; the embedded value itself leaves [data] two statements later. *)
Definition parseRelationships_with
    (jsonapify : value -> SequelizeModel -> string -> value -> outcome Jsonapified)
    (state : value * list value) (include : Include)
  : outcome (value * list value) :=
  let '(data, includedData) := state in
  let relationshipName :=
    if underscored (association include)
    then underscores_to_dashes (as_ include) else as_ include in
  reference <- createRelationshipObject include data ;;
  let relationship := VObj [(relationshipName, VObj [("data", reference)])] in
  embedded <- get data (as_ include) ;;
  includedData <-
    (if is_null embedded then Normal includedData
     else
       id <- get embedded "id" ;;
       serializedRelationship <-
         jsonapify embedded (model include)
                   (name (model include) ++ "/" ++ to_string id)
                   (VObj [("include", VArr [])]) ;;
       includedData <-
         match document serializedRelationship with
         | VArr items =>
             linked <- mapM (with_self_link include) items ;;
             Normal (includedData ++ linked)%list
         | doc =>
             copy <- assign [] doc ;;
             Normal (includedData ++
                     [VObj (put "links" (links serializedRelationship) copy)])%list
         end ;;
       _ <- delete embedded (key_name (foreignKey (association include))) ;;
       Normal includedData) ;;
  data <- delete data (key_name (foreignKey (association include))) ;;
  data <- delete data (as_ include) ;;
  if is_null reference then Normal (data, includedData)
  else
    relationships <- get data "relationships" ;;
    merged <- assign [] relationships ;;
    merged <- assign merged relationship ;;
    data <- set data "relationships" (VObj merged) ;;
    Normal (data, includedData).

(** Lines 188-191: a [relationships] attribute moves to the top of the
    resource object. *)
Definition hoistRelationships (json : object) : outcome object :=
  json_data <- get (VObj json) "data" ;;
  attrs <- get json_data "attributes" ;;
  if truthy attrs then
    relationships <- get attrs "relationships" ;;
    if truthy relationships then
      json_data <- set json_data "relationships" relationships ;;
      attrs <- get json_data "attributes" ;;
      attrs <- delete attrs "relationships" ;;
      json_data <- set json_data "attributes" attrs ;;
      Normal (put "data" json_data json)
    else Normal json
  else Normal json.

Definition idAttribute (model : SequelizeModel) : option string :=
  hd_error (filter (byPrimaryKey model) (map fst (attributes model))).

(** The attribute names handed to the serializer. *)
Definition serializedAttributes (model : SequelizeModel) : list string :=
  (filter (byExcluded [idAttribute model]) (map fst (attributes model))
   ++ ["relationships"])%list.

Definition jsonapify_with
    (parse : value * list value -> Include -> outcome (value * list value))
    (data : value) (model : SequelizeModel) (selfUrl : string) (context : value)
  : outcome Jsonapified :=
  includes <- context_include context ;;
  '(data, includedData) <- forEach parse includes (data, []) ;;
  let json := JSONAPISerializer (name model) data ("/" ++ selfUrl)
                                (serializedAttributes model) in
  json <- hoistRelationships json ;;
  json_data <- get (VObj json) "data" ;;
  json_links <- get (VObj json) "links" ;;
  Normal {| document := json_data; links := json_links;
            related := match includedData with
                       | [] => None
                       | _ => Some includedData
                       end |}.

(** The call made on an embedded value: its include list is empty, the
    callback never runs. *)
Definition jsonapify_embedded : value -> SequelizeModel -> string -> value
                                -> outcome Jsonapified :=
  jsonapify_with (fun _ _ => Unmodelled).

Definition parseRelationships : value * list value -> Include
                                -> outcome (value * list value) :=
  parseRelationships_with jsonapify_embedded.

Definition jsonapify : value -> SequelizeModel -> string -> value
                       -> outcome Jsonapified :=
  jsonapify_with parseRelationships.

(** *** [removeDuplicateRecords] *)

(** [uniqueRecords[key] = item] on the object literal [uniqueRecords].
    The name [__proto__] is the accessor of the prototype that the literal
    inherits: the assignment goes to its setter, which makes [item] the
    prototype of [uniqueRecords] (and does nothing for an [item] that is
    not an object); [uniqueRecords] gets no own property.  Every other
    name becomes an own property. *)
Definition file_record (key : string) (item : value) (uniqueRecords : object)
  : object :=
  if String.eqb key "__proto__" then uniqueRecords
  else put key item uniqueRecords.

Definition removeDuplicateRecords (collection : list value) : outcome (list value) :=
  uniqueRecords <-
    forEach (fun (uniqueRecords : object) item =>
               id <- get item "id" ;;
               Normal (file_record (to_string id) item uniqueRecords))
            collection [] ;;
  Normal (map snd (own_enumerable (VObj uniqueRecords))).

(** *** [createMetadata] *)

Definition is_document_key (key : string) : bool :=
  existsb (String.eqb key) ["data"; "included"; "meta"; "links"].

Definition createMetadata (hook : Hook) : outcome Hook :=
  allKeys <- keys (result hook) ;;
  let metaKeys := filter (fun key => negb (is_document_key key)) allKeys in
  match metaKeys with
  | [] => Normal hook
  | _ =>
      '(meta, res) <-
        forEach (fun (state : object * value) key =>
                   let '(meta, res) := state in
                   x <- get res key ;;
                   res <- delete res key ;;
                   Normal (put (dasherize key) x meta, res))
                metaKeys ([], result hook) ;;
      res <- set res "meta" (VObj meta) ;;
      Normal (with_result hook res)
  end.

(** *** [createPagination] *)

Definition number_of (v : value) : outcome Z :=
  match v with
  | VNum n => Normal n
  | _ => Unmodelled
  end.

(** [Math.floor(total / limit) * limit] as it is printed: a division by
    zero gives [Infinity] or [NaN], and the product with zero [NaN]. *)
Definition lastSkip (total limit : Z) : string :=
  if limit =? 0 then "NaN" else string_of_Z (total / limit * limit).

Definition add_link (cond : bool) (key href : string) (linksObject : object)
  : object :=
  if cond then put key (VStr href) linksObject else linksObject.

(** The four links.  The sums, the difference and the decimal forms are
    those of the integers, which is what the source computes as long as
    the numbers are held exactly ([safeInteger]). *)
Definition paginationLinks (hookPath : string) (skip limit total : Z) : object :=
  let l0 : object := [] in
  let l1 := add_link (skip >=? limit) "first" ("/" ++ hookPath) l0 in
  let l2 := add_link (skip + limit <? total) "next"
              ("/" ++ hookPath ++ "?$skip=" ++ string_of_Z (skip + limit)) l1 in
  let l3 := add_link (skip + limit >? limit) "prev"
              ("/" ++ hookPath ++ "?$skip=" ++ string_of_Z (skip - limit)) l2 in
  add_link (skip + limit <? total) "last"
           ("/" ++ hookPath ++ "?$skip=" ++ lastSkip total limit) l3.

Definition createPagination (hook : Hook) : outcome Hook :=
  skip <- get (result hook) "skip" ;;
  total <- get (result hook) "total" ;;
  limit <- get (result hook) "limit" ;;
  if negb (is_undefined skip) && negb (is_undefined total)
     && negb (is_undefined limit)
  then
    res <- set (result hook) "links" (VObj []) ;;
    skip <- number_of skip ;;
    limit <- number_of limit ;;
    total <- number_of total ;;
    res <- set res "links" (VObj (paginationLinks (path hook) skip limit total)) ;;
    Normal (with_result hook res)
  else Normal hook.

(** *** [serializePlainObject] *)

Definition differs (key : string) (k : option string) : bool :=
  match k with
  | Some s => negb (String.eqb key s)
  | None => true
  end.

Definition serializePlainObject (item : value) (opts : Options) (hook : Hook)
  : outcome value :=
  id <- (if option_set (identifierKey opts)
         then get item (key_name (identifierKey opts))
         else digest <- generateFauxId item ;; Normal (VStr digest)) ;;
  type <- (if option_set (typeKey opts)
           then get item (key_name (typeKey opts))
           else get (options (service hook)) "name") ;;
  allKeys <- keys item ;;
  attrs <-
    forEach (fun (attrs : object) key =>
               x <- get item key ;;
               Normal (put (dasherize key) x attrs))
            (filter (fun key => differs key (identifierKey opts)
                                && differs key (typeKey opts)) allKeys)
            [] ;;
  Normal (VObj [("id", id); ("type", type); ("attributes", VObj attrs);
                ("links", VObj [("self", VStr ("/" ++ path hook ++ "/"
                                               ++ to_string id))])]).

(** *** [jsonapifyViaFind] *)

Fixpoint replace_nth (i : nat) (x : value) (items : list value) : list value :=
  match items, i with
  | [], _ => []
  | _ :: rest, O => x :: rest
  | y :: rest, S j => y :: replace_nth j x rest
  end.

(** [hook.result.data[index] = x], where [hook.result.data] is the array
    that [forEach] walks. *)
Definition set_data_at (res : value) (index : nat) (x : value) : outcome value :=
  d <- get res "data" ;;
  match d with
  | VArr items => set res "data" (VArr (replace_nth index x items))
  | _ => Unmodelled
  end.

Definition findStep (sequelizeModel : SequelizeModel)
    (state : Hook * nat) (data : value) : outcome (Hook * nat) :=
  let '(hook, index) := state in
  let jsonItem := JSON_stringify data in
  id <- get jsonItem "id" ;;
  context <- get data "$options" ;;
  serialized <- jsonapify jsonItem sequelizeModel
                          (path hook ++ "/" ++ to_string id) context ;;
  res <- set_data_at (result hook) index (document serialized) ;;
  res <- match related serialized with
         | Some rel =>
             inc <- get res "included" ;;
             match inc with
             | VArr included => set res "included" (VArr (included ++ rel)%list)
             | _ => Unmodelled
             end
         | None => Normal res
         end ;;
  hook <- (if truthy (links serialized) then
             doc <- set (document serialized) "links" (links serialized) ;;
             res <- set_data_at res index doc ;;
             createPagination (with_result hook res)
           else Normal (with_result hook res)) ;;
  Normal (hook, S index).

Definition jsonapifyViaFind (hook : Hook) (opts : Options) : outcome Hook :=
  match Model (service hook) with
  | Some sequelizeModel =>
      res <- set (result hook) "included" (VArr []) ;;
      d <- get res "data" ;;
      match d with
      | VArr items =>
          '(hook, _) <- forEach (findStep sequelizeModel) items
                                (with_result hook res, O) ;;
          inc <- get (result hook) "included" ;;
          match inc with
          | VArr [] =>
              res <- delete (result hook) "included" ;;
              createMetadata (with_result hook res)
          | VArr included =>
              unique <- removeDuplicateRecords included ;;
              res <- set (result hook) "included" (VArr unique) ;;
              createMetadata (with_result hook res)
          | _ => Unmodelled
          end
      | VHost _ => Unmodelled
      | _ => Throw TypeError
      end
  | None =>
      match result hook with
      | VArr ((_ :: _ :: _) as items) =>
          serialized <- mapM (fun item => serializePlainObject item opts hook)
                             items ;;
          Normal (with_result hook (VObj [("data", VArr serialized)]))
      | VArr _ =>
          Normal (with_result hook (VObj [("data", VArr [])]))
      | res =>
          allKeys <- keys res ;;
          match allKeys with
          | [] => Normal (with_result hook (VObj [("data", VArr [])]))
          | _ =>
              serialized <- serializePlainObject res opts hook ;;
              Normal (with_result hook (VObj [("data", VArr [serialized])]))
          end
      end
  end.

(** *** [jsonapifyViaGet] *)

Definition jsonapifyViaGet (hook : Hook) (opts : Options) : outcome Hook :=
  match Model (service hook) with
  | Some sequelizeModel =>
      let jsonItem := JSON_stringify (result hook) in
      id <- get jsonItem "id" ;;
      context <- get (result hook) "$options" ;;
      serialized <- jsonapify jsonItem sequelizeModel
                              (path hook ++ "/" ++ to_string id) context ;;
      let included :=
        match related serialized with
        | Some rel => VArr rel
        | None => VUndefined
        end in
      let res : object := [("data", document serialized); ("included", included)] in
      let res := match included with
                 | VArr [] => remove "included" res
                 | _ => res
                 end in
      res <- (if truthy (links serialized) then
                doc <- set (document serialized) "links" (links serialized) ;;
                withParent <- set (links serialized) "parent"
                                  (VStr ("/" ++ name sequelizeModel)) ;;
                doc <- set doc "links" withParent ;;
                Normal (put "data" doc res)
              else Normal res) ;;
      createMetadata (with_result hook (VObj res))
  | None =>
      serialized <- serializePlainObject (result hook) opts hook ;;
      res <- set (result hook) "data" serialized ;;
      Normal (with_result hook res)
  end.

(** *** The hook: [module.exports(options)(hook)] *)

Definition hookFunction (opts : Options) (hook : Hook) : outcome Hook :=
  if String.eqb (method hook) "find" then jsonapifyViaFind hook opts
  else if String.eqb (method hook) "get" then jsonapifyViaGet hook opts
  else Normal hook.

End Collaborators.

(** ** A reference serializer

    Modelled from the spec: the resource-serialization step of the
    [jsonapi-serializer] package, which is not part of the repository.  It
    builds [{type, id, attributes}] for a record, or one such object per
    element of a collection, with the attributes of the record that are
    named in the list, and puts the [self] link at the top of the
    document.  It keeps the names of the attributes as they are and
    answers for every value; it stands for the package on records that
    are objects with attribute names in lower case, where the two agree
    but for an [attributes] member that the package leaves out when it
    would be empty. *)

Definition pick (names : list string) (record : object) : object :=
  flat_map (fun k => match lookup k record with
                     | Some x => [(k, x)]
                     | None => []
                     end) names.

Definition resourceObject (type : string) (names : list string) (record : value)
  : value :=
  match record with
  | VObj o =>
      VObj (("type", VStr type)
            :: match lookup "id" o with
               | Some x => [("id", VStr (to_string x))]
               | None => []
               end
            ++ [("attributes", VObj (pick names o))])%list
  | VNull => VNull
  | _ => VObj [("type", VStr type)]
  end.

Definition referenceSerializer (type : string) (data : value) (self : string)
    (names : list string) : object :=
  [("links", VObj [("self", VStr self)]);
   ("data", match data with
            | VArr records => VArr (map (resourceObject type names) records)
            | _ => resourceObject type names data
            end)].

(** Stand-ins for [JSON.stringify] and the digest where a concrete run
    needs them: the text of a value is its string form. *)
Definition referenceStringify (v : value) : value := VStr (to_string v).
Definition referenceDigest (text : string) : string := text.

Definition topics : SequelizeModel :=
  {| name := "topics";
     attributes := [("id", {| primaryKey := true |});
                    ("name", {| primaryKey := false |});
                    ("parentTopicId", {| primaryKey := false |})] |}.

Definition parentTopic : Include :=
  {| as_ := "parentTopic"; model := topics;
     association := {| targetKey := Some "id";
                       foreignKey := Some "parentTopicId";
                       underscored := false |} |}.

Definition topicsHook (m : string) (res : value) : Hook :=
  {| method := m; path := "topics"; result := res;
     service := {| Model := Some topics; options := VObj [] |} |}.

(** A hook of a service that has no model. *)
Definition plainHook (m p : string) (serviceOptions : value) (res : value) : Hook :=
  {| method := m; path := p; result := res;
     service := {| Model := None; options := serviceOptions |} |}.

Definition personHook (m : string) (res : value) : Hook :=
  plainHook m "person" (VObj [("name", VStr "person")]) res.

Definition noOptions : Options := {| identifierKey := None; typeKey := None |}.

(** ** Predicates of the statements *)

(** A link is in the object with the given text when the condition
    holds, and is not in it otherwise. *)
Definition emitted (linksObject : object) (key : string) (cond : Prop)
    (href : string) : Prop :=
  (cond -> lookup key linksObject = Some (VStr href)) /\
  (~ cond -> lookup key linksObject = None).

Definition page (skip limit total : Z) : value :=
  VObj [("total", VNum total); ("limit", VNum limit); ("skip", VNum skip)].

Definition uuidKey : Options := {| identifierKey := Some "uuid"; typeKey := None |}.

Definition is_resource (item : value) : Prop := exists o, item = VObj o.

(** The [id] of a resource object. *)
Definition identifier (item : value) : value :=
  match item with
  | VObj o => match lookup "id" o with Some x => x | None => VUndefined end
  | _ => VUndefined
  end.

(** The property name under which [removeDuplicateRecords] files an item. *)
Definition idKey (item : value) : string := to_string (identifier item).

(** The last item of a collection filed under [k]. *)
Fixpoint last_with (k : string) (collection : list value) : option value :=
  match collection with
  | [] => None
  | x :: rest =>
      match last_with k rest with
      | Some y => Some y
      | None => if String.eqb (idKey x) k then Some x else None
      end
  end.

Definition file_all (collection : list value) (uniqueRecords : object) : object :=
  fold_left (fun u x => put (idKey x) x u) collection uniqueRecords.

(** The items that [removeDuplicateRecords] files under an own property:
    all but those whose [id] reads [__proto__]. *)
Definition filed (collection : list value) : list value :=
  filter (fun x => negb (String.eqb (idKey x) "__proto__")) collection.

(** The reference object [{type, <targetKey>}] of an embedded record. *)
Definition referenceTo (include : Include) (embedded : object) : value :=
  let k := key_name (targetKey (association include)) in
  VObj (put k (match lookup k embedded with Some x => x | None => VUndefined end)
            [("type", VStr (name (model include)))]).

(** The resource objects of a document: its elements, or the document. *)
Definition resourcesOf (doc : value) : list value :=
  match doc with
  | VArr items => items
  | _ => [doc]
  end.

(** The [attributes] of a resource object. *)
Definition attributesOf (resource : value) : object :=
  match resource with
  | VObj d => match lookup "attributes" d with
              | Some (VObj attrs) => attrs
              | _ => []
              end
  | _ => []
  end.

Definition fails {A : Type} (m : outcome A) : Prop := exists e, m = Throw e.

(** The context of the call on an embedded value, [{include: []}]. *)
Definition noInclude : value := VObj [("include", VArr [])].

Definition orUndefined (x : option value) : value :=
  match x with Some v => v | None => VUndefined end.

Definition tags : SequelizeModel :=
  {| name := "tags"; attributes := [("label", {| primaryKey := false |})] |}.


Definition sportsCars : value :=
  VObj [("id", VStr "sports-cars"); ("name", VStr "Cars");
        ("parentTopicId", VStr "sports");
        ("parentTopic", VObj [("id", VStr "sports"); ("name", VStr "Sports");
                              ("parentTopicId", VNull)])].




(** Whether a string holds one of the letters [A] to [Z]. *)
Fixpoint has_upper (s : string) : bool :=
  match s with
  | EmptyString => false
  | String c rest => is_upper c || has_upper rest
  end.

(** The keys that [createMetadata] moves: the own keys of the result
    other than [data], [included], [meta] and [links]. *)
Definition metaKeys (o : object) : list string :=
  filter (fun key => negb (is_document_key key)) (own_keys o).

(** The result object once the keys [names] are deleted one by one. *)
Definition strip (names : list string) (o : object) : object :=
  fold_left (fun acc k => remove k acc) names o.

(** The [meta] object once the keys [names] are moved one by one. *)
Fixpoint moved (names : list string) (meta o : object) : object :=
  match names with
  | [] => meta
  | k :: rest =>
      moved rest (put (dasherize k) (orUndefined (lookup k o)) meta) (remove k o)
  end.

(** The [attributes] object once the keys [names] of the record [o] are
    copied under their dasherized names. *)
Definition renamed (names : list string) (attrs o : object) : object :=
  fold_left (fun acc k => put (dasherize k) (orUndefined (lookup k o)) acc)
            names attrs.

(** The keys of a record that [serializePlainObject] copies. *)
Definition attributeKeys (opts : Options) (o : object) : list string :=
  filter (fun key => differs key (identifierKey opts)
                     && differs key (typeKey opts)) (own_keys o).

(** Whether a string holds an underscore. *)
Fixpoint has_underscore (s : string) : bool :=
  match s with
  | EmptyString => false
  | String c rest => Ascii.eqb c "_" || has_underscore rest
  end.

(** The key under which [parseRelationships] records a relationship. *)
Definition relationshipName (include : Include) : string :=
  if underscored (association include)
  then underscores_to_dashes (as_ include) else as_ include.


(** ** The first version of the hook

    [jsonapify] of the earliest file of the repository: the identity
    attribute and the attribute list as in [index.js], without
    [relationships]; the [self] link of a single record ends with its
    identity. *)

Module FirstVersion.

Section Serializer.

Variable JSONAPISerializer : string -> value -> string -> list string -> object.

Definition jsonapify (data : value) (model : SequelizeModel) (selfUrl : string)
  : outcome object :=
  let idAttribute := hd_error (filter (byPrimaryKey model)
                                      (map fst (attributes model))) in
  let attributes := filter (fun attribute => differs attribute idAttribute)
                           (map fst (attributes model)) in
  idParameter <-
    (if negb (isArray data)
     then x <- get data (key_name idAttribute) ;; Normal ("/" ++ to_string x)
     else Normal "") ;;
  Normal (JSONAPISerializer (name model) data ("/" ++ selfUrl ++ idParameter)
                            attributes).

End Serializer.

End FirstVersion.

(** The integers that a JavaScript number holds exactly, zero to
    [Number.MAX_SAFE_INTEGER]: on them the sum, the difference, the
    rounded-down quotient and the decimal form of the source are those of
    the integers. *)
Definition MAX_SAFE_INTEGER : Z := 9007199254740991.

Definition safeInteger (n : Z) : Prop := 0 <= n <= MAX_SAFE_INTEGER.

(** Whether every character of a string is one of the 128 of ASCII. *)
Fixpoint is_ascii (s : string) : bool :=
  match s with
  | EmptyString => true
  | String c rest => (N_of_ascii c <? 128)%N && is_ascii rest
  end.

(** The names of the members that every object inherits from
    [Object.prototype]: a read of one of them on a record that has no own
    property of that name gives the inherited member. *)
Definition inheritedName (k : string) : bool :=
  existsb (String.eqb k)
    ["__proto__"; "constructor"; "hasOwnProperty"; "isPrototypeOf";
     "propertyIsEnumerable"; "toLocaleString"; "toString"; "valueOf";
     "__defineGetter__"; "__defineSetter__"; "__lookupGetter__";
     "__lookupSetter__"].

(** * Properties *)

(** ** Own properties: lookup, assignment, removal *)

Lemma lookup_put_same (k : string) (v : value) (o : object) :
  lookup k (put k v o) = Some v.
Proof.
  induction o as [|[k' v'] o IH]; simpl.
  - now rewrite String.eqb_refl.
  - destruct (String.eqb k k') eqn:E; simpl.
    + now rewrite String.eqb_refl.
    + now rewrite E.
Qed.

Lemma lookup_put_other (k k' : string) (v : value) (o : object) :
  k <> k' -> lookup k (put k' v o) = lookup k o.
Proof.
  intros Hne. induction o as [|[k2 v2] o IH]; simpl.
  - destruct (String.eqb k k') eqn:E; [apply String.eqb_eq in E; contradiction | reflexivity].
  - destruct (String.eqb k' k2) eqn:E2; simpl.
    + apply String.eqb_eq in E2; subst k2.
      destruct (String.eqb k k') eqn:E; [apply String.eqb_eq in E; contradiction | reflexivity].
    + destruct (String.eqb k k2); [reflexivity | exact IH].
Qed.

Lemma put_put (k : string) (v w : value) (o : object) :
  put k w (put k v o) = put k w o.
Proof.
  induction o as [|[k' v'] o IH]; simpl.
  - now rewrite String.eqb_refl.
  - destruct (String.eqb k k') eqn:E; simpl.
    + now rewrite String.eqb_refl.
    + now rewrite E, IH.
Qed.

Lemma lookup_remove_same (k : string) (o : object) :
  lookup k (remove k o) = None.
Proof.
  induction o as [|[k' v'] o IH]; simpl; [reflexivity|].
  destruct (String.eqb k k') eqn:E; simpl; [exact IH | now rewrite E].
Qed.

Lemma lookup_remove_other (k k' : string) (o : object) :
  k <> k' -> lookup k (remove k' o) = lookup k o.
Proof.
  intros Hne. induction o as [|[k2 v2] o IH]; simpl; [reflexivity|].
  destruct (String.eqb k' k2) eqn:E2; simpl.
  - apply String.eqb_eq in E2; subst k2.
    destruct (String.eqb k k') eqn:E; [apply String.eqb_eq in E; contradiction | exact IH].
  - destruct (String.eqb k k2); [reflexivity | exact IH].
Qed.

Lemma insert_index_perm (e : N * string) (sorted : list (N * string)) :
  Permutation (insert_index e sorted) (e :: sorted).
Proof.
  induction sorted as [|e' rest IH]; simpl; [reflexivity|].
  destruct (fst e <=? fst e')%N; [reflexivity|].
  rewrite IH. apply perm_swap.
Qed.

Lemma own_keys_perm (o : object) : Permutation (own_keys o) (map fst o).
Proof.
  unfold own_keys. induction (map fst o) as [|k ks IH]; simpl; [reflexivity|].
  destruct (array_index k) as [i|]; simpl.
  - rewrite (Permutation_map snd (insert_index_perm (i, k) (index_names ks))).
    simpl. now constructor.
  - rewrite <- Permutation_middle. now constructor.
Qed.

(** ** Pagination links *)

Lemma paginationLinks_keys (p : string) (skip limit total : Z) (k : string) :
  has_key k (paginationLinks p skip limit total) = true ->
  In k ["first"; "next"; "prev"; "last"].
Proof.
  unfold paginationLinks, add_link, has_key.
  destruct (skip >=? limit), (skip + limit <? total), (skip + limit >? limit);
    simpl;
    repeat match goal with
           | |- context [String.eqb k ?s] =>
               let E := fresh "E" in
               destruct (String.eqb k s) eqn:E;
               [apply String.eqb_eq in E; subst k; simpl; intros _; tauto|]
           end; simpl; intros H; discriminate H.
Qed.

Lemma paginationLinks_emitted (p : string) (skip limit total : Z) :
  let l := paginationLinks p skip limit total in
  emitted l "first" (skip >= limit) ("/" ++ p) /\
  emitted l "next" (skip + limit < total)
          ("/" ++ p ++ "?$skip=" ++ string_of_Z (skip + limit)) /\
  emitted l "prev" (skip + limit > limit)
          ("/" ++ p ++ "?$skip=" ++ string_of_Z (skip - limit)) /\
  emitted l "last" (skip + limit < total)
          ("/" ++ p ++ "?$skip=" ++ lastSkip total limit).
Proof.
  unfold paginationLinks, add_link, emitted.
  destruct (Z.geb_spec skip limit), (Z.ltb_spec (skip + limit) total),
    (Z.gtb_spec (skip + limit) limit); simpl;
    repeat split; intros; try reflexivity; lia.
Qed.

Lemma createPagination_defined (hook : Hook) (o : object) (skip limit total : Z) :
  result hook = VObj o ->
  lookup "skip" o = Some (VNum skip) ->
  lookup "limit" o = Some (VNum limit) ->
  lookup "total" o = Some (VNum total) ->
  createPagination hook =
  Normal (with_result hook
            (VObj (put "links" (VObj (paginationLinks (path hook) skip limit total)) o))).
Proof.
  intros Hres Hs Hl Ht. unfold createPagination. rewrite Hres. simpl.
  rewrite Hs, Ht, Hl. simpl. now rewrite put_put.
Qed.

(** C1. When [skip], [limit] and [total] of the result are non-negative
    integers that a number holds exactly, as is their sum [skip + limit],
    and the path is [p], [createPagination]
    puts on the result a [links] object that holds exactly: [first] =
    ['/' + p] iff [skip >= limit]; [next] = ['/' + p + '?$skip=' + (skip +
    limit)] iff [skip + limit < total]; [prev] = ['/' + p + '?$skip=' +
    (skip - limit)] iff [skip + limit > limit]; [last] = ['/' + p +
    '?$skip=' + Math.floor(total / limit) * limit] iff [skip + limit <
    total], the number being [total / limit * limit] rounded down when
    [limit] is not zero; and no other link.  For [{skip: 0, limit: 2,
    total: 15}] over [topics] the links are exactly [next] =
    [/topics?$skip=2] and [last] = [/topics?$skip=14]. *)
Theorem createPagination_emits_exactly
    (hook : Hook) (o : object) (skip limit total : Z) :
  result hook = VObj o ->
  lookup "skip" o = Some (VNum skip) ->
  lookup "limit" o = Some (VNum limit) ->
  lookup "total" o = Some (VNum total) ->
  safeInteger skip -> safeInteger limit -> safeInteger total ->
  safeInteger (skip + limit) ->
  exists l : object,
    createPagination hook
    = Normal (with_result hook (VObj (put "links" (VObj l) o))) /\
    emitted l "first" (skip >= limit) ("/" ++ path hook) /\
    emitted l "next" (skip + limit < total)
            ("/" ++ path hook ++ "?$skip=" ++ string_of_Z (skip + limit)) /\
    emitted l "prev" (skip + limit > limit)
            ("/" ++ path hook ++ "?$skip=" ++ string_of_Z (skip - limit)) /\
    emitted l "last" (skip + limit < total)
            ("/" ++ path hook ++ "?$skip=" ++ lastSkip total limit) /\
    (limit <> 0 -> lastSkip total limit = string_of_Z (total / limit * limit)) /\
    (forall k, has_key k l = true -> In k ["first"; "next"; "prev"; "last"]) /\
    createPagination (topicsHook "find" (page 0 2 15))
    = Normal (topicsHook "find"
                (VObj [("total", VNum 15); ("limit", VNum 2); ("skip", VNum 0);
                       ("links", VObj [("next", VStr "/topics?$skip=2");
                                       ("last", VStr "/topics?$skip=14")])])).
Proof.
  intros Hres Hs Hl Ht _ _ _ _.
  exists (paginationLinks (path hook) skip limit total).
  split; [now apply createPagination_defined|].
  destruct (paginationLinks_emitted (path hook) skip limit total)
    as (Hfirst & Hnext & Hprev & Hlast).
  repeat (split; [assumption|]).
  split.
  - intros Hne. unfold lastSkip.
    destruct (Z.eqb_spec limit 0); [contradiction | reflexivity].
  - split; [apply paginationLinks_keys | reflexivity].
Qed.

Lemma createPagination_emits_exactly_witness :
  exists l : object,
    createPagination (topicsHook "find" (page 2 2 15))
    = Normal (with_result (topicsHook "find" (page 2 2 15))
                (VObj (put "links" (VObj l)
                         [("total", VNum 15); ("limit", VNum 2); ("skip", VNum 2)])))
    /\ lookup "first" l = Some (VStr "/topics")
    /\ lookup "next" l = Some (VStr "/topics?$skip=4")
    /\ lookup "prev" l = Some (VStr "/topics?$skip=0")
    /\ lookup "last" l = Some (VStr "/topics?$skip=14").
Proof.
  assert (Hsafe : forall n, 0 <= n <= 17 -> safeInteger n)
    by (unfold safeInteger, MAX_SAFE_INTEGER; lia).
  destruct (@createPagination_emits_exactly (topicsHook "find" (page 2 2 15))
              [("total", VNum 15); ("limit", VNum 2); ("skip", VNum 2)] 2 2 15
              eq_refl eq_refl eq_refl eq_refl
              (Hsafe 2 ltac:(lia)) (Hsafe 2 ltac:(lia)) (Hsafe 15 ltac:(lia))
              (Hsafe (2 + 2) ltac:(lia)))
    as (l & Hrun & Hfirst & Hnext & Hprev & Hlast & _).
  exists l. split; [exact Hrun|].
  split; [apply Hfirst; lia|].
  split; [apply Hnext; lia|].
  split; [apply Hprev; lia|].
  apply Hlast; lia.
Defined.

(** C9. When [skip], [limit] and [total] of the result are all defined
    (integers), [createPagination] puts a [links] property on the result
    whatever the emission conditions are: the hook it leaves is the one
    it was given, its result the object it was given with [links] put on
    it (in the place of a [links] it had, at the end otherwise) and
    everything else as it was.  When none of the four conditions holds,
    as for [skip = 0] with [skip + limit >= total], the [links] object
    has no property at all. *)
Theorem createPagination_always_attaches_links
    (hook : Hook) (o : object) (skip limit total : Z) :
  result hook = VObj o ->
  lookup "skip" o = Some (VNum skip) ->
  lookup "limit" o = Some (VNum limit) ->
  lookup "total" o = Some (VNum total) ->
  exists l : object,
    createPagination hook
    = Normal (with_result hook (VObj (put "links" (VObj l) o))) /\
    lookup "links" (put "links" (VObj l) o) = Some (VObj l) /\
    (forall k, k <> "links" ->
               lookup k (put "links" (VObj l) o) = lookup k o) /\
    (skip < limit -> skip + limit >= total -> skip + limit <= limit -> l = []).
Proof.
  intros Hres Hs Hl Ht.
  exists (paginationLinks (path hook) skip limit total).
  split; [now apply createPagination_defined|].
  split; [apply lookup_put_same|].
  split; [intros k Hk; now apply lookup_put_other|].
  intros H1 H2 H3. unfold paginationLinks, add_link.
  destruct (Z.geb_spec skip limit); [lia|].
  destruct (Z.ltb_spec (skip + limit) total); [lia|].
  destruct (Z.gtb_spec (skip + limit) limit); [lia|].
  reflexivity.
Qed.

Lemma createPagination_always_attaches_links_witness :
  createPagination (topicsHook "find" (page 0 2 2))
  = Normal (topicsHook "find"
              (VObj [("total", VNum 2); ("limit", VNum 2); ("skip", VNum 0);
                     ("links", VObj [])])).
Proof.
  destruct (@createPagination_always_attaches_links (topicsHook "find" (page 0 2 2))
              [("total", VNum 2); ("limit", VNum 2); ("skip", VNum 0)] 0 2 2
              eq_refl eq_refl eq_refl eq_refl)
    as (l & Hrun & _ & _ & Hempty).
  rewrite Hrun, (Hempty ltac:(lia) ltac:(lia) ltac:(lia)). reflexivity.
Defined.

(** ** The plain-object serializer *)

Section PlainObjects.

Variable JSON_stringify : value -> value.
Variable sha256_hex : string -> string.

Lemma get_object_normal (o : object) (k : string) :
  get (VObj o) k
  = Normal (match lookup k o with Some x => x | None => VUndefined end).
Proof. simpl. now destruct (lookup k o). Qed.

Lemma plain_attributes_total (o : object) (names : list string) (acc : object) :
  exists attrs : object,
    forEach (fun (attrs : object) key =>
               x <- get (VObj o) key ;;
               Normal (put (dasherize key) x attrs)) names acc
    = Normal attrs.
Proof.
  revert acc. induction names as [|key names IH]; intros acc; simpl.
  - now exists acc.
  - destruct (lookup key o); simpl; apply IH.
Qed.

Lemma option_set_name (k : string) : k <> "" -> option_set (Some k) = true.
Proof.
  intros Hne. simpl. destruct (String.eqb_spec k ""); [contradiction | reflexivity].
Qed.

Lemma plain_type_total (o so : object) (opts : Options) (hook : Hook) :
  options (service hook) = VObj so ->
  exists type : value,
    (if option_set (typeKey opts)
     then get (VObj o) (key_name (typeKey opts))
     else get (options (service hook)) "name") = Normal type.
Proof.
  intros Hso. rewrite Hso. destruct (option_set (typeKey opts)).
  - rewrite get_object_normal. eauto.
  - rewrite get_object_normal. eauto.
Qed.

(** C10. In [serializePlainObject] the digest of the record is the [id]
    only when [identifierKey] is not set ([undefined], or the empty name,
    which the test of the option takes for not set).  When [identifierKey]
    is set (a name [k]), the [id] is the [k] field of the record, whatever
    the digest would be; for a record without that field the [id] is
    [undefined] and [links.self] is built from it.  The names that
    [identifierKey] and [typeKey] give are not names of members that a
    record inherits from [Object.prototype]. *)
Theorem serializePlainObject_id_from_identifierKey
    (o so : object) (opts : Options) (hook : Hook) :
  options (service hook) = VObj so ->
  (forall t : string, typeKey opts = Some t -> inheritedName t = false) ->
  (forall k : string,
      identifierKey opts = Some k -> k <> "" -> inheritedName k = false ->
      let id := match lookup k o with Some x => x | None => VUndefined end in
      (exists type attrs,
          serializePlainObject JSON_stringify sha256_hex (VObj o) opts hook
          = Normal (VObj [("id", id); ("type", type); ("attributes", VObj attrs);
                          ("links",
                           VObj [("self", VStr ("/" ++ path hook ++ "/"
                                                ++ to_string id))])])) /\
      (lookup k o = None ->
       exists type attrs,
         serializePlainObject JSON_stringify sha256_hex (VObj o) opts hook
         = Normal (VObj [("id", VUndefined); ("type", type);
                         ("attributes", VObj attrs);
                         ("links",
                          VObj [("self", VStr ("/" ++ path hook
                                               ++ "/undefined"))])])) /\
      (forall (stringify' : value -> value) (digest' : string -> string),
          serializePlainObject stringify' digest' (VObj o) opts hook
          = serializePlainObject JSON_stringify sha256_hex (VObj o) opts hook)) /\
  (forall text : string,
      option_set (identifierKey opts) = false ->
      JSON_stringify (VObj o) = VStr text ->
      exists type attrs,
        serializePlainObject JSON_stringify sha256_hex (VObj o) opts hook
        = Normal (VObj [("id", VStr (sha256_hex text)); ("type", type);
                        ("attributes", VObj attrs);
                        ("links",
                         VObj [("self", VStr ("/" ++ path hook ++ "/"
                                              ++ sha256_hex text))])])).
Proof.
  intros Hso _.
  destruct (plain_type_total o opts hook Hso) as [type Htype].
  split.
  - intros k Hk Hne _ id.
    assert (Hrun : forall s d,
               exists attrs,
                 serializePlainObject s d (VObj o) opts hook
                 = Normal (VObj [("id", id); ("type", type);
                                 ("attributes", VObj attrs);
                                 ("links",
                                  VObj [("self", VStr ("/" ++ path hook ++ "/"
                                                       ++ to_string id))])]) /\
                 serializePlainObject s d (VObj o) opts hook
                 = serializePlainObject JSON_stringify sha256_hex (VObj o) opts hook).
    { intros s d. unfold serializePlainObject.
      rewrite Hk, (option_set_name Hne). cbn [key_name].
      rewrite get_object_normal. cbn [bind]. rewrite Htype. cbn [bind keys].
      destruct (plain_attributes_total o
                  (filter (fun key => differs key (Some k)
                                      && differs key (typeKey opts))
                          (map fst (own_enumerable (VObj o)))) [])
        as [attrs Hattrs].
      exists attrs. rewrite Hattrs. cbn [bind]. split; reflexivity. }
    destruct (Hrun JSON_stringify sha256_hex) as (attrs & Heq & _).
    split; [now exists type, attrs|].
    split.
    + intros Hnone. exists type, attrs. rewrite Heq. subst id.
      rewrite Hnone. reflexivity.
    + intros s d. destruct (Hrun s d) as (_ & _ & Hsame). exact Hsame.
  - intros text Hk Htext. unfold serializePlainObject, generateFauxId.
    rewrite Hk, Htext. cbn [bind]. rewrite Htype. cbn [bind keys].
    destruct (plain_attributes_total o
                (filter (fun key => differs key (identifierKey opts)
                                    && differs key (typeKey opts))
                        (map fst (own_enumerable (VObj o)))) [])
      as [attrs Hattrs].
    exists type, attrs. rewrite Hattrs. reflexivity.
Qed.

End PlainObjects.

Lemma serializePlainObject_id_from_identifierKey_witness :
  exists type attrs,
    serializePlainObject referenceStringify referenceDigest
      (VObj [("firstName", VStr "Joel")]) uuidKey
      (personHook "get" (VObj [("firstName", VStr "Joel")]))
    = Normal (VObj [("id", VUndefined); ("type", type);
                    ("attributes", VObj attrs);
                    ("links", VObj [("self", VStr "/person/undefined")])]).
Proof.
  destruct (@serializePlainObject_id_from_identifierKey
              referenceStringify referenceDigest
              [("firstName", VStr "Joel")] [("name", VStr "person")] uuidKey
              (personHook "get" (VObj [("firstName", VStr "Joel")])) eq_refl
              ltac:(intros t Ht; discriminate Ht))
    as [Hset _].
  destruct (Hset "uuid" eq_refl ltac:(discriminate) eq_refl)
    as (_ & Habsent & _).
  exact (Habsent eq_refl).
Defined.

(** ** The find entry point on plain objects *)

Lemma own_keys_nonempty (k : string) (v : value) (o : object) :
  own_keys ((k, v) :: o) <> [].
Proof.
  intros Hnil. pose proof (own_keys_perm ((k, v) :: o)) as Hperm.
  rewrite Hnil in Hperm. apply Permutation_nil in Hperm. discriminate Hperm.
Qed.

(** C4.  On a service without a model, the find entry point serializes
    every element of a sequence of two elements or more, wraps the one
    resource of a record that is not a sequence and has a field, and
    answers an empty [data] for an empty sequence and an empty record.
    For a sequence of a single element it also answers an empty [data]:
    the element is not serialized. *)
Theorem jsonapifyViaFind_single_element_sequence
    (JSON_stringify : value -> value) (sha256_hex : string -> string)
    (JSONAPISerializer : string -> value -> string -> list string -> object)
    (m p : string) (so : value) (opts : Options) :
  let hook := plainHook m p so in
  let find := jsonapifyViaFind JSON_stringify sha256_hex JSONAPISerializer in
  let serialize res item :=
    serializePlainObject JSON_stringify sha256_hex item opts (hook res) in
  (forall a b rest,
      find (hook (VArr (a :: b :: rest))) opts
      = (serialized <- mapM (serialize (VArr (a :: b :: rest))) (a :: b :: rest) ;;
         Normal (hook (VObj [("data", VArr serialized)])))) /\
  (forall k v o,
      find (hook (VObj ((k, v) :: o))) opts
      = (serialized <- serialize (VObj ((k, v) :: o)) (VObj ((k, v) :: o)) ;;
         Normal (hook (VObj [("data", VArr [serialized])])))) /\
  find (hook (VArr [])) opts = Normal (hook (VObj [("data", VArr [])])) /\
  find (hook (VObj [])) opts = Normal (hook (VObj [("data", VArr [])])) /\
  (forall item,
      find (hook (VArr [item])) opts = Normal (hook (VObj [("data", VArr [])]))).
Proof.
  intros hook find serialize.
  split; [intros; reflexivity|]. split; [|repeat split; intros; reflexivity].
  intros k v o. unfold find, jsonapifyViaFind.
  cbn [hook plainHook Model service result keys bind own_enumerable].
  pose proof (@own_keys_nonempty k v o) as Hne.
  destruct (own_keys ((k, v) :: o)); [contradiction | reflexivity].
Qed.

(** ** Deduplication of included records *)

Lemma forEach_files (collection : list value) (u : object) :
  Forall is_resource collection ->
  forEach (fun (uniqueRecords : object) item =>
             id <- get item "id" ;;
             Normal (file_record (to_string id) item uniqueRecords)) collection u
  = Normal (file_all (filed collection) u).
Proof.
  intros Hall. revert u. induction Hall as [|x xs [o ->] _ IH]; intros u.
  - reflexivity.
  - cbn [forEach]. rewrite get_object_normal. cbn [bind]. rewrite IH.
    unfold file_record, filed. cbn [filter].
    change (to_string match lookup "id" o with
                      | Some x => x
                      | None => VUndefined
                      end) with (idKey (VObj o)).
    now destruct (String.eqb (idKey (VObj o)) "__proto__").
Qed.

Lemma filed_all (collection : list value) :
  Forall (fun x => idKey x <> "__proto__") collection ->
  filed collection = collection.
Proof.
  intros Hall. unfold filed. induction Hall as [|x xs Hx _ IH]; [reflexivity|].
  cbn [filter]. destruct (String.eqb_spec (idKey x) "__proto__");
    [contradiction | cbn [negb]; now rewrite IH].
Qed.

Lemma in_filed (collection : list value) (x : value) :
  In x (filed collection) <-> In x collection /\ idKey x <> "__proto__".
Proof.
  unfold filed. rewrite filter_In.
  destruct (String.eqb_spec (idKey x) "__proto__"); cbn [negb];
    intuition congruence.
Qed.

Lemma last_with_filed (k : string) (collection : list value) :
  k <> "__proto__" -> last_with k (filed collection) = last_with k collection.
Proof.
  intros Hk. induction collection as [|x xs IH]; [reflexivity|].
  unfold filed in *. cbn [filter last_with].
  destruct (String.eqb_spec (idKey x) "__proto__") as [Heq | Hne]; cbn [negb].
  - rewrite IH. destruct (last_with k xs); [reflexivity|].
    destruct (String.eqb_spec (idKey x) k); [congruence | reflexivity].
  - cbn [last_with]. now rewrite IH.
Qed.

Lemma last_with_key (k : string) (collection : list value) (x : value) :
  last_with k collection = Some x -> idKey x = k /\ In x collection.
Proof.
  induction collection as [|y ys IH]; simpl; [discriminate|].
  destruct (last_with k ys) as [z|].
  - intros [= ->]. destruct (IH eq_refl) as [Hk Hin]. auto.
  - destruct (String.eqb_spec (idKey y) k); [|discriminate].
    intros [= ->]. auto.
Qed.

Lemma last_with_some (collection : list value) (x : value) :
  In x collection -> exists y, last_with (idKey x) collection = Some y.
Proof.
  induction collection as [|z zs IH]; simpl; [contradiction|].
  intros [-> | Hin].
  - destruct (last_with (idKey x) zs); [eauto|].
    rewrite String.eqb_refl. eauto.
  - destruct (IH Hin) as [y ->]. eauto.
Qed.

Lemma lookup_file_all (k : string) (collection : list value) (u : object) :
  lookup k (file_all collection u)
  = match last_with k collection with
    | Some x => Some x
    | None => lookup k u
    end.
Proof.
  revert u. induction collection as [|x xs IH]; intros u; [reflexivity|].
  cbn [file_all fold_left last_with]. fold (file_all xs (put (idKey x) x u)).
  rewrite IH. destruct (last_with k xs); [reflexivity|].
  destruct (String.eqb_spec (idKey x) k) as [<- | Hne].
  - apply lookup_put_same.
  - apply lookup_put_other. congruence.
Qed.

Lemma lookup_in_keys (k : string) (o : object) :
  In k (map fst o) <-> lookup k o <> None.
Proof.
  induction o as [|[k' v] o IH]; simpl.
  - split; [contradiction | congruence].
  - destruct (String.eqb_spec k k') as [-> | Hne].
    + split; [discriminate | auto].
    + rewrite <- IH. split; [intros [H|H]; [congruence | exact H] | auto].
Qed.

Lemma keys_put (k : string) (v : value) (o : object) :
  map fst (put k v o)
  = if has_key k o then map fst o else (map fst o ++ [k])%list.
Proof.
  unfold has_key. induction o as [|[k' v'] o IH]; simpl; [reflexivity|].
  destruct (String.eqb_spec k k') as [-> | Hne]; simpl; [reflexivity|].
  rewrite IH. now destruct (lookup k o).
Qed.

Lemma NoDup_keys_put (k : string) (v : value) (o : object) :
  NoDup (map fst o) -> NoDup (map fst (put k v o)).
Proof.
  intros Hnd. rewrite keys_put. unfold has_key.
  destruct (lookup k o) eqn:E; [exact Hnd|].
  apply NoDup_app; [exact Hnd | repeat constructor; simpl; tauto |].
  intros x Hx [<- | []]. apply lookup_in_keys in Hx. congruence.
Qed.

Lemma NoDup_keys_file_all (collection : list value) (u : object) :
  NoDup (map fst u) -> NoDup (map fst (file_all collection u)).
Proof.
  revert u. induction collection as [|x xs IH]; intros u Hnd; [exact Hnd|].
  apply IH, NoDup_keys_put, Hnd.
Qed.

Lemma NoDup_map_compose {A B C : Type} (f : B -> C) (g : A -> B) (l : list A) :
  NoDup (map (fun x => f (g x)) l) -> NoDup (map g l).
Proof.
  induction l as [|x xs IH]; simpl; intros Hnd; [constructor|].
  inversion Hnd as [|? ? Hnotin Hrest]; subst. constructor; [|now apply IH].
  intros Hin. apply Hnotin. apply in_map_iff in Hin as (y & Hy & Hiny).
  apply in_map_iff. exists y. split; [now rewrite Hy | exact Hiny].
Qed.

Lemma removeDuplicateRecords_files (collection : list value) :
  Forall is_resource collection ->
  removeDuplicateRecords collection
  = Normal (map (fun k => match lookup k (file_all (filed collection) []) with
                          | Some x => x
                          | None => VUndefined
                          end)
                (own_keys (file_all (filed collection) []))).
Proof.
  intros Hall. unfold removeDuplicateRecords. rewrite (forEach_files _ Hall).
  cbn [bind own_enumerable]. now rewrite map_map.
Qed.

Lemma kept_of_key (collection : list value) (k : string) :
  In k (own_keys (file_all collection [])) ->
  exists x, lookup k (file_all collection []) = Some x /\
            last_with k collection = Some x.
Proof.
  intros Hin. apply (Permutation_in _ (own_keys_perm _)) in Hin.
  apply lookup_in_keys in Hin. rewrite lookup_file_all in Hin |- *.
  destruct (last_with k collection) as [x|]; [eauto | now simpl in Hin].
Qed.

(** C5. For a sequence of resource objects, [removeDuplicateRecords]
    returns at most one entry per identifier: no two entries have the
    same [id] (compared as property names, which for [id]s that are
    strings is equality of the values) and every entry is the last item of
    the input with its [id].  Every [id] of the input other than
    [__proto__] has its entry, and two records with such an [id] in common
    leave one entry, the second.  A record whose [id] is [__proto__] has no
    entry: the assignment that should file it changes the prototype of the
    table instead, and the record is lost though it duplicates nothing;
    [[{id: '__proto__', type: 'topics'}]] comes back as the empty
    sequence. *)
Theorem removeDuplicateRecords_last_write_wins (collection : list value) :
  Forall is_resource collection ->
  exists unique : list value,
    removeDuplicateRecords collection = Normal unique /\
    NoDup (map idKey unique) /\
    NoDup (map identifier unique) /\
    (forall kept, In kept unique ->
                  last_with (idKey kept) collection = Some kept) /\
    (forall item, In item collection -> idKey item <> "__proto__" ->
                  exists kept, In kept unique /\ idKey kept = idKey item) /\
    ((forall item, In item collection -> exists s, identifier item = VStr s) ->
     forall item, In item collection -> idKey item <> "__proto__" ->
                  exists kept, In kept unique /\
                               identifier kept = identifier item) /\
    (forall a b, is_resource a -> is_resource b -> idKey a = idKey b ->
                 idKey b <> "__proto__" ->
                 removeDuplicateRecords [a; b] = Normal [b]) /\
    (forall kept, In kept unique -> idKey kept <> "__proto__") /\
    (forall a, is_resource a -> idKey a = "__proto__" ->
               removeDuplicateRecords [a] = Normal []) /\
    removeDuplicateRecords [VObj [("id", VStr "__proto__");
                                  ("type", VStr "topics")]]
    = Normal [].
Proof.
  intros Hall.
  set (u := file_all (filed collection) []).
  set (pickUp := fun k => match lookup k u with Some x => x | None => VUndefined end).
  exists (map pickUp (own_keys u)).
  assert (Hkept' : forall k, In k (own_keys u) ->
                             last_with k (filed collection) = Some (pickUp k)).
  { intros k Hin. destruct (kept_of_key (filed collection) k Hin) as (x & Hl & Hlast).
    unfold pickUp, u. now rewrite Hl. }
  assert (Hown : forall k, In k (own_keys u) -> k <> "__proto__").
  { intros k Hin. destruct (last_with_key _ _ (Hkept' k Hin)) as [Hk Hx].
    apply in_filed in Hx. rewrite <- Hk. tauto. }
  assert (Hkept : forall k, In k (own_keys u) ->
                            last_with k collection = Some (pickUp k)).
  { intros k Hin. rewrite <- (last_with_filed collection (Hown k Hin)).
    now apply Hkept'. }
  assert (Hkeys : map idKey (map pickUp (own_keys u)) = own_keys u).
  { rewrite map_map. rewrite <- (map_id (own_keys u)) at 2.
    apply map_ext_in. intros k Hin.
    now destruct (last_with_key _ _ (Hkept k Hin)). }
  assert (Hnd : NoDup (map idKey (map pickUp (own_keys u)))).
  { rewrite Hkeys.
    apply (Permutation_NoDup (Permutation_sym (own_keys_perm u))).
    apply NoDup_keys_file_all. constructor. }
  assert (Hcover : forall item, In item collection -> idKey item <> "__proto__" ->
             exists kept, In kept (map pickUp (own_keys u)) /\
                          idKey kept = idKey item).
  { intros item Hin Hne. destruct (last_with_some _ _ Hin) as [y Hy].
    exists y. split; [|now destruct (last_with_key _ _ Hy)].
    apply in_map_iff. exists (idKey item).
    assert (Hk : In (idKey item) (own_keys u)).
    { apply (Permutation_in _ (Permutation_sym (own_keys_perm u))).
      apply lookup_in_keys. unfold u.
      rewrite lookup_file_all, (last_with_filed collection Hne), Hy.
      discriminate. }
    split; [|exact Hk]. specialize (Hkept _ Hk). congruence. }
  split; [now apply removeDuplicateRecords_files|].
  split; [exact Hnd|].
  split; [exact (NoDup_map_compose to_string identifier _ Hnd)|].
  split.
  { intros kept Hin. apply in_map_iff in Hin as (k & <- & Hk).
    destruct (last_with_key _ _ (Hkept k Hk)) as [-> _]. now apply Hkept. }
  split; [exact Hcover|].
  split.
  { intros Hstr item Hin Hne. destruct (Hcover item Hin Hne) as (kept & Hk & Hid).
    exists kept. split; [exact Hk|].
    assert (Hin' : In kept collection).
    { apply in_map_iff in Hk as (k & <- & Hk).
      now destruct (last_with_key _ _ (Hkept k Hk)). }
    destruct (Hstr _ Hin) as [s Hs], (Hstr _ Hin') as [s' Hs'].
    unfold idKey in Hid. rewrite Hs, Hs' in Hid |- *. simpl in Hid. now subst. }
  split.
  { intros a b [oa ->] [ob ->] Hab Hne.
    rewrite removeDuplicateRecords_files by (repeat constructor; eexists; reflexivity).
    rewrite filed_all by (repeat constructor; congruence).
    cbn [file_all fold_left put]. rewrite <- Hab, String.eqb_refl.
    unfold own_keys. cbn [map fst index_names other_names filter].
    destruct (array_index (idKey (VObj oa))); cbn; now rewrite String.eqb_refl. }
  split.
  { intros kept Hin. apply in_map_iff in Hin as (k & <- & Hk).
    destruct (last_with_key _ _ (Hkept k Hk)) as [-> _]. now apply Hown. }
  split; [|reflexivity].
  intros a [oa ->] Ha.
  rewrite removeDuplicateRecords_files by (repeat constructor; eexists; reflexivity).
  unfold filed. cbn [filter]. rewrite Ha. reflexivity.
Qed.

Lemma removeDuplicateRecords_last_write_wins_witness :
  exists unique : list value,
    removeDuplicateRecords
      [VObj [("id", VStr "sports"); ("type", VStr "topics")];
       VObj [("id", VStr "__proto__"); ("type", VStr "topics")];
       VObj [("id", VStr "sports"); ("type", VStr "topics"); ("seen", VNum 2)]]
    = Normal unique /\
    NoDup (map idKey unique).
Proof.
  destruct (@removeDuplicateRecords_last_write_wins
              [VObj [("id", VStr "sports"); ("type", VStr "topics")];
               VObj [("id", VStr "__proto__"); ("type", VStr "topics")];
               VObj [("id", VStr "sports"); ("type", VStr "topics");
                     ("seen", VNum 2)]])
    as (unique & Hrun & Hnd & _).
  - repeat constructor; eexists; reflexivity.
  - exists unique. split; assumption.
Defined.

(** ** The relationship resolver *)

Lemma relatedItem_object (include : Include) (embedded : object) :
  relatedItem include (VObj embedded) = Normal (referenceTo include embedded).
Proof. unfold relatedItem. now rewrite get_object_normal. Qed.

Lemma relatedItem_sequence (include : Include) (records : list object) :
  mapM (relatedItem include) (map VObj records)
  = Normal (map (referenceTo include) records).
Proof.
  induction records as [|e records IH]; [reflexivity|].
  cbn [map mapM]. rewrite relatedItem_object. cbn [bind]. now rewrite IH.
Qed.

Lemma get_put_same (o : object) (k : string) (v : value) :
  get (VObj (put k v o)) k = Normal v.
Proof. rewrite get_object_normal. now rewrite lookup_put_same. Qed.

Lemma get_remove_same (o : object) (k : string) :
  get (VObj (remove k o)) k = Normal VUndefined.
Proof. rewrite get_object_normal. now rewrite lookup_remove_same. Qed.

(** C7.  [createRelationshipObject] gives, for an embedded sequence of
    records, the sequence of their [{type, identifier}] objects; for an
    embedded record, one such object; for an embedded value that is
    absent, [null] or a scalar, [null], without an exception.  The
    resolver [parseRelationships] records nothing under [relationships]
    for an embedded [null]; but for a parent record that has no value at
    the [as] field it raises a [TypeError], reading [id] of [undefined]. *)
Theorem parseRelationships_absent_embedded_value
    (JSONAPISerializer : string -> value -> string -> list string -> object)
    (include : Include) (o : object) (includedData : list value) :
  let field := as_ include in
  (forall records : list object,
      createRelationshipObject include (VObj (put field (VArr (map VObj records)) o))
      = Normal (VArr (map (referenceTo include) records))) /\
  (forall embedded : object,
      createRelationshipObject include (VObj (put field (VObj embedded) o))
      = Normal (referenceTo include embedded)) /\
  (forall (b : bool) (n : Z) (s : string),
      createRelationshipObject include (VObj (put field VNull o)) = Normal VNull /\
      createRelationshipObject include (VObj (put field VUndefined o)) = Normal VNull /\
      createRelationshipObject include (VObj (put field (VBool b) o)) = Normal VNull /\
      createRelationshipObject include (VObj (put field (VNum n) o)) = Normal VNull /\
      createRelationshipObject include (VObj (put field (VStr s) o)) = Normal VNull) /\
  createRelationshipObject include (VObj (remove field o)) = Normal VNull /\
  parseRelationships JSONAPISerializer (VObj (put field VNull o), includedData) include
  = Normal (VObj (remove field
                    (remove (key_name (foreignKey (association include)))
                       (put field VNull o))),
            includedData) /\
  parseRelationships JSONAPISerializer (VObj (remove field o), includedData) include
  = Throw TypeError.
Proof.
  intros field. unfold createRelationshipObject.
  split.
  { intros records. rewrite get_put_same. cbn [bind truthy isArray andb].
    now rewrite relatedItem_sequence. }
  split.
  { intros embedded. rewrite get_put_same. cbn [bind truthy isArray typeof_object andb].
    apply relatedItem_object. }
  split.
  { intros b n s. rewrite !get_put_same. cbn [bind truthy isArray typeof_object andb].
    repeat split; try reflexivity.
    - now destruct b.
    - now destruct (negb (n =? 0)).
    - now destruct (negb (String.eqb s "")). }
  split.
  { now rewrite get_remove_same. }
  split.
  - unfold parseRelationships, parseRelationships_with, createRelationshipObject.
    rewrite !get_put_same. reflexivity.
  - unfold parseRelationships, parseRelationships_with, createRelationshipObject.
    rewrite !get_remove_same. reflexivity.
Qed.

(** ** The document assembler *)

Section Assembler.

Variable JSONAPISerializer : string -> value -> string -> list string -> object.

Lemma hoistRelationships_collection (json : object) (items : list value) :
  lookup "data" json = Some (VArr items) ->
  hoistRelationships json = Normal json.
Proof.
  intros Hd. unfold hoistRelationships. rewrite get_object_normal, Hd.
  reflexivity.
Qed.

Lemma hoistRelationships_falsy (json d attrs : object) :
  lookup "data" json = Some (VObj d) ->
  lookup "attributes" d = Some (VObj attrs) ->
  truthy (orUndefined (lookup "relationships" attrs)) = false ->
  hoistRelationships json = Normal json.
Proof.
  intros Hd Ha Hr. unfold hoistRelationships.
  rewrite get_object_normal, Hd. cbn [bind]. rewrite get_object_normal, Ha.
  cbn [bind truthy]. rewrite get_object_normal. cbn [bind].
  unfold orUndefined in Hr. now rewrite Hr.
Qed.

Lemma hoistRelationships_truthy (json d attrs : object) (rel : value) :
  lookup "data" json = Some (VObj d) ->
  lookup "attributes" d = Some (VObj attrs) ->
  lookup "relationships" attrs = Some rel ->
  truthy rel = true ->
  hoistRelationships json
  = Normal (put "data"
              (VObj (put "attributes" (VObj (remove "relationships" attrs))
                         (put "relationships" rel d))) json).
Proof.
  intros Hd Ha Hr Ht. unfold hoistRelationships.
  rewrite get_object_normal, Hd. cbn [bind]. rewrite get_object_normal, Ha.
  cbn [bind truthy]. rewrite get_object_normal, Hr. cbn [bind]. rewrite Ht.
  cbn [set bind]. rewrite get_object_normal.
  rewrite lookup_put_other by discriminate. rewrite Ha. reflexivity.
Qed.


Lemma jsonapify_noInclude
    (parse : value * list value -> Include -> outcome (value * list value))
    (data : value) (model : SequelizeModel) (selfUrl : string) :
  jsonapify_with JSONAPISerializer parse data model selfUrl noInclude
  = (json <- hoistRelationships
               (JSONAPISerializer (name model) data ("/" ++ selfUrl)
                                  (serializedAttributes model)) ;;
     Normal {| document := orUndefined (lookup "data" json);
               links := orUndefined (lookup "links" json);
               related := None |}).
Proof.
  unfold jsonapify_with. cbn [noInclude context_include lookup String.eqb
                                Ascii.eqb Bool.eqb truthy bind forEach].
  destruct (hoistRelationships _); cbn [bind]; try reflexivity.
  now rewrite !get_object_normal.
Qed.

End Assembler.

Lemma resourceObject_attributes (type : string) (names : list string) (o : object) :
  exists d, resourceObject type names (VObj o) = VObj d /\
            lookup "attributes" d = Some (VObj (pick names o)).
Proof.
  unfold resourceObject. eexists. split; [reflexivity|].
  now destruct (lookup "id" o).
Qed.


Lemma jsonapify_run
    (z : string -> value -> string -> list string -> object)
    (data data' : value) (model : SequelizeModel) (selfUrl : string)
    (context : value) (includes : list Include) (includedData : list value) :
  context_include context = Normal includes ->
  forEach (parseRelationships z) includes (data, []) = Normal (data', includedData) ->
  jsonapify z data model selfUrl context
  = (json <- hoistRelationships
               (z (name model) data' ("/" ++ selfUrl) (serializedAttributes model)) ;;
     Normal {| document := orUndefined (lookup "data" json);
               links := orUndefined (lookup "links" json);
               related := match includedData with
                          | [] => None
                          | _ => Some includedData
                          end |}).
Proof.
  intros Hc Hf. unfold jsonapify, jsonapify_with. rewrite Hc. cbn [bind].
  rewrite Hf. cbn [bind].
  destruct (hoistRelationships _); cbn [bind]; try reflexivity.
  now rewrite !get_object_normal.
Qed.

(** C3, the claim refuted: the elements of a collection document keep a
    [relationships] attribute. *)
Lemma relationships_attribute_of_collection_element :
  exists r resource,
    jsonapify referenceSerializer
      (VArr [VObj [("id", VStr "sports"); ("name", VStr "Sports");
                   ("relationships", VObj [("rival", VStr "games")])]])
      topics "topics/undefined" noInclude = Normal r /\
    In resource (resourcesOf (document r)) /\
    has_key "relationships" (attributesOf resource) = true.
Proof.
  eexists. eexists. split; [vm_compute; reflexivity|].
  split; [left; reflexivity | reflexivity].
Qed.

(** C3, amended.  Let [json] be what the serialization step returns for the
    record that the relationship resolver leaves.  When [json.data] is a
    single resource object whose [attributes] hold a truthy
    [relationships] value, as the value injected by the resolver is,
    [jsonapify] returns the resource object with that value at its top
    level and no [relationships] key under [attributes].  When [json.data]
    is a collection, or the [relationships] attribute is absent or falsy,
    [jsonapify] returns [json.data] as the serialization step made it. *)
Theorem jsonapify_hoists_truthy_relationships
    (z : string -> value -> string -> list string -> object)
    (data data' : value) (model : SequelizeModel) (selfUrl : string)
    (context : value) (includes : list Include) (includedData : list value) :
  context_include context = Normal includes ->
  forEach (parseRelationships z) includes (data, []) = Normal (data', includedData) ->
  let json := z (name model) data' ("/" ++ selfUrl) (serializedAttributes model) in
  (forall d attrs rel,
      lookup "data" json = Some (VObj d) ->
      lookup "attributes" d = Some (VObj attrs) ->
      lookup "relationships" attrs = Some rel ->
      truthy rel = true ->
      exists r,
        jsonapify z data model selfUrl context = Normal r /\
        document r = VObj (put "attributes" (VObj (remove "relationships" attrs))
                               (put "relationships" rel d)) /\
        has_key "relationships" (attributesOf (document r)) = false /\
        get (document r) "relationships" = Normal rel) /\
  (forall items,
      lookup "data" json = Some (VArr items) ->
      exists r,
        jsonapify z data model selfUrl context = Normal r /\
        document r = VArr items) /\
  (forall d attrs,
      lookup "data" json = Some (VObj d) ->
      lookup "attributes" d = Some (VObj attrs) ->
      truthy (orUndefined (lookup "relationships" attrs)) = false ->
      exists r,
        jsonapify z data model selfUrl context = Normal r /\
        document r = VObj d).
Proof.
  intros Hc Hf json. rewrite (@jsonapify_run z data data' model selfUrl context includes includedData Hc Hf). fold json.
  split; [|split].
  - intros d attrs rel Hd Ha Hr Ht.
    rewrite (hoistRelationships_truthy _ Hd Ha Hr Ht). cbn [bind].
    eexists. split; [reflexivity|]. cbn [document].
    rewrite lookup_put_same. cbn [orUndefined]. split; [reflexivity|].
    split.
    + unfold attributesOf. rewrite lookup_put_same.
      unfold has_key. now rewrite lookup_remove_same.
    + rewrite get_object_normal, lookup_put_other by discriminate.
      now rewrite lookup_put_same.
  - intros items Hd. rewrite (hoistRelationships_collection _ Hd). cbn [bind].
    eexists. split; [reflexivity|]. cbn [document]. now rewrite Hd.
  - intros d attrs Hd Ha Hr. rewrite (hoistRelationships_falsy _ Hd Ha Hr).
    cbn [bind]. eexists. split; [reflexivity|]. cbn [document]. now rewrite Hd.
Qed.

Lemma jsonapify_hoists_truthy_relationships_witness :
  exists r,
    jsonapify referenceSerializer sportsCars topics "topics/sports-cars"
              (VHost {| include := Some [parentTopic] |}) = Normal r /\
    has_key "relationships" (attributesOf (document r)) = false /\
    get (document r) "relationships"
    = Normal (VObj [("parentTopic",
                     VObj [("data", VObj [("type", VStr "topics");
                                          ("id", VStr "sports")])])]).
Proof.
  destruct (@jsonapify_hoists_truthy_relationships
              referenceSerializer sportsCars
              (VObj [("id", VStr "sports-cars"); ("name", VStr "Cars");
                     ("relationships",
                      VObj [("parentTopic",
                             VObj [("data", VObj [("type", VStr "topics");
                                                  ("id", VStr "sports")])])])])
              topics "topics/sports-cars"
              (VHost {| include := Some [parentTopic] |}) [parentTopic]
              [VObj [("type", VStr "topics"); ("id", VStr "sports");
                     ("attributes",
                      VObj [("name", VStr "Sports"); ("parentTopicId", VNull)]);
                     ("links", VObj [("self", VStr "/topics/sports")])]]
              eq_refl eq_refl) as [Hsingle _].
  destruct (Hsingle _ _ _ eq_refl eq_refl eq_refl eq_refl)
    as (r & Hrun & _ & Hattrs & Hrel).
  exists r. split; [exact Hrun|]. split; [exact Hattrs | exact Hrel].
Defined.




Lemma filter_nothing_excluded (names : list string) :
  filter (byExcluded [None]) names = names.
Proof.
  induction names as [|n names IH]; simpl; [reflexivity | now rewrite IH].
Qed.

Lemma referenceSerializer_record_returns
    (parse : value * list value -> Include -> outcome (value * list value))
    (o : object) (model : SequelizeModel) (selfUrl : string) :
  exists r,
    jsonapify_with referenceSerializer parse (VObj o) model selfUrl noInclude
    = Normal r.
Proof.
  rewrite jsonapify_noInclude.
  destruct (resourceObject_attributes (name model) (serializedAttributes model) o)
    as (d & Hd & Ha).
  set (json := referenceSerializer (name model) (VObj o) ("/" ++ selfUrl)
                                   (serializedAttributes model)).
  assert (Hdata : lookup "data" json = Some (VObj d)).
  { unfold json, referenceSerializer. cbn [lookup String.eqb Ascii.eqb Bool.eqb].
    now rewrite Hd. }
  destruct (truthy (orUndefined
                      (lookup "relationships"
                              (pick (serializedAttributes model) o)))) eqn:Ht.
  - destruct (lookup "relationships" (pick (serializedAttributes model) o))
      as [rel|] eqn:Hr; [|discriminate].
    rewrite (hoistRelationships_truthy _ Hdata Ha Hr Ht). cbn [bind]. eauto.
  - rewrite (hoistRelationships_falsy _ Hdata Ha Ht). cbn [bind]. eauto.
Qed.

(** C2, the claim refuted: for a model with no primary-key attribute the
    assembler does not fail. *)
Lemma jsonapify_without_primary_key_returns :
  idAttribute tags = None /\
  ~ fails (jsonapify referenceSerializer (VObj [("label", VStr "rocq")]) tags
                     "tags/undefined" noInclude).
Proof.
  split; [reflexivity|]. intros [e He]. vm_compute in He. discriminate He.
Qed.

(** C2, amended.  For a model in which no attribute is flagged as primary
    key, [jsonapify] raises no error for it: the identity attribute is
    [undefined], nothing is excluded, and every attribute name, followed
    by [relationships], is given to the serialization step, whose
    document is the result; with the reference serializer every record
    is assembled normally. *)
Theorem jsonapify_without_primary_key
    (z : string -> value -> string -> list string -> object)
    (model : SequelizeModel) (data : value) (selfUrl : string) :
  idAttribute model = None ->
  serializedAttributes model
  = (map fst (attributes model) ++ ["relationships"])%list /\
  jsonapify z data model selfUrl noInclude
  = (json <- hoistRelationships
               (z (name model) data ("/" ++ selfUrl)
                  (map fst (attributes model) ++ ["relationships"])%list) ;;
     Normal {| document := orUndefined (lookup "data" json);
               links := orUndefined (lookup "links" json);
               related := None |}) /\
  (forall o : object,
      exists r, jsonapify referenceSerializer (VObj o) model selfUrl noInclude
                = Normal r).
Proof.
  intros Hid.
  assert (Hnames : serializedAttributes model
                   = (map fst (attributes model) ++ ["relationships"])%list).
  { unfold serializedAttributes. now rewrite Hid, filter_nothing_excluded. }
  split; [exact Hnames|]. split.
  - unfold jsonapify. now rewrite jsonapify_noInclude, Hnames.
  - intros o. apply referenceSerializer_record_returns.
Qed.

Lemma jsonapify_without_primary_key_witness :
  exists r,
    jsonapify referenceSerializer (VObj [("label", VStr "rocq")]) tags
              "tags/undefined" noInclude = Normal r.
Proof.
  destruct (@jsonapify_without_primary_key
              referenceSerializer tags (VObj [("label", VStr "rocq")])
              "tags/undefined" eq_refl) as (_ & _ & Hreturns).
  exact (Hreturns [("label", VStr "rocq")]).
Defined.

(** ** The get entry point *)





(** * Further properties of [index.js] *)

(** ** [dasherize] *)

Lemma toLowerCase_char_lower (c : ascii) : is_upper (toLowerCase_char c) = false.
Proof. destruct c as [[] [] [] [] [] [] [] []]; reflexivity. Qed.

Lemma toLowerCase_char_fixed (c : ascii) :
  is_upper c = false -> toLowerCase_char c = c.
Proof. unfold toLowerCase_char. now intros ->. Qed.

Lemma toLowerCase_lower (s : string) : has_upper (toLowerCase s) = false.
Proof.
  induction s as [|c s IH]; [reflexivity|].
  cbn [toLowerCase has_upper]. now rewrite toLowerCase_char_lower, IH.
Qed.

Lemma toLowerCase_fixed (s : string) : has_upper s = false -> toLowerCase s = s.
Proof.
  induction s as [|c s IH]; [reflexivity|].
  cbn [has_upper toLowerCase]. intros H. apply orb_false_iff in H as [Hc Hs].
  now rewrite (toLowerCase_char_fixed _ Hc), (IH Hs).
Qed.

Lemma dash_before_upper_fixed (s : string) :
  has_upper s = false -> dash_before_upper s = s.
Proof.
  induction s as [|c s IH]; [reflexivity|].
  cbn [has_upper dash_before_upper]. intros H.
  apply orb_false_iff in H as [Hc Hs]. now rewrite Hc, (IH Hs).
Qed.

Lemma dasherize_unchanged (str : string) :
  has_upper str = false -> dasherize str = str.
Proof.
  intros H. unfold dasherize. destruct str as [|c rest]; [reflexivity|].
  cbn [has_upper] in H. apply orb_false_iff in H as [Hc Hs].
  rewrite (toLowerCase_char_fixed _ Hc), dash_before_upper_fixed.
  - apply toLowerCase_fixed. cbn [has_upper]. now rewrite Hc, Hs.
  - cbn [has_upper]. now rewrite Hc, Hs.
Qed.

(** X1. The result of [dasherize] holds none of the capital letters [A]
    to [Z]; to dasherize a second time changes nothing; and a name of
    ASCII characters without a capital letter is left as it is. *)
Theorem dasherize_lower_idempotent (str : string) :
  has_upper (dasherize str) = false /\
  dasherize (dasherize str) = dasherize str /\
  (is_ascii str = true -> has_upper str = false -> dasherize str = str).
Proof.
  assert (H : has_upper (dasherize str) = false)
    by (unfold dasherize; apply toLowerCase_lower).
  split; [exact H|]. split; [now apply dasherize_unchanged|].
  intros _. apply dasherize_unchanged.
Qed.

Lemma dasherize_lower_idempotent_witness :
  dasherize "parent-topic-id" = "parent-topic-id".
Proof.
  destruct (dasherize_lower_idempotent "parent-topic-id") as (_ & _ & Hfixed).
  exact (Hfixed eq_refl eq_refl).
Defined.

(** ** [createMetadata] *)

Lemma keys_of_object (o : object) : keys (VObj o) = Normal (own_keys o).
Proof.
  cbn [keys own_enumerable]. rewrite map_map. cbn [fst]. now rewrite map_id.
Qed.

Lemma with_result_same (hook : Hook) : with_result hook (result hook) = hook.
Proof. now destruct hook. Qed.

Lemma in_own_keys (o : object) (k : string) :
  In k (own_keys o) <-> has_key k o = true.
Proof.
  unfold has_key. split.
  - intros H. apply (Permutation_in _ (own_keys_perm o)) in H.
    apply lookup_in_keys in H. now destruct (lookup k o).
  - intros H. apply (Permutation_in _ (Permutation_sym (own_keys_perm o))).
    apply lookup_in_keys. now destruct (lookup k o).
Qed.

Lemma metadata_loop (names : list string) (meta o : object) :
  forEach (fun (state : object * value) key =>
             let '(meta, res) := state in
             x <- get res key ;;
             res <- delete res key ;;
             Normal (put (dasherize key) x meta, res))
          names (meta, VObj o)
  = Normal (moved names meta o, VObj (strip names o)).
Proof.
  revert meta o. induction names as [|k names IH]; intros meta o; [reflexivity|].
  cbn [forEach]. rewrite get_object_normal. cbn [bind delete].
  rewrite IH. reflexivity.
Qed.

Lemma lookup_strip_out (names : list string) (o : object) (k : string) :
  ~ In k names -> lookup k (strip names o) = lookup k o.
Proof.
  revert o. induction names as [|k' names IH]; intros o Hout; [reflexivity|].
  cbn [strip fold_left]. fold (strip names (remove k' o)).
  rewrite IH by (intros Hin; apply Hout; now right).
  apply lookup_remove_other. intros ->. apply Hout. now left.
Qed.






Lemma createMetadata_object (hook : Hook) (o : object) :
  result hook = VObj o ->
  createMetadata hook
  = match metaKeys o with
    | [] => Normal hook
    | names =>
        Normal (with_result hook
                  (VObj (put "meta" (VObj (moved names [] o)) (strip names o))))
    end.
Proof.
  intros Hres. unfold createMetadata. rewrite Hres, keys_of_object. cbn [bind].
  fold (metaKeys o). destruct (metaKeys o) as [|k names]; [reflexivity|].
  now rewrite metadata_loop.
Qed.

Lemma metaKeys_spec (o : object) (k : string) :
  In k (metaKeys o) <-> has_key k o = true /\ is_document_key k = false.
Proof.
  unfold metaKeys. rewrite filter_In, in_own_keys, negb_true_iff. reflexivity.
Qed.





(** ** [createPagination] *)

(** X3. When the result object lacks one of [skip], [total] and [limit]
    (the field is absent or [undefined]), [createPagination] leaves the
    hook as it is: no [links] is put on the result. *)
Theorem createPagination_needs_all_three (hook : Hook) (o : object) :
  result hook = VObj o ->
  orUndefined (lookup "skip" o) = VUndefined \/
  orUndefined (lookup "total" o) = VUndefined \/
  orUndefined (lookup "limit" o) = VUndefined ->
  createPagination hook = Normal hook.
Proof.
  intros Hres Hmissing. unfold createPagination.
  rewrite Hres, !get_object_normal. cbn [bind].
  fold (orUndefined (lookup "skip" o)) (orUndefined (lookup "total" o))
       (orUndefined (lookup "limit" o)).
  destruct Hmissing as [-> | [-> | ->]]; cbn [is_undefined negb andb];
    rewrite ?andb_false_r; reflexivity.
Qed.

Lemma createPagination_needs_all_three_witness :
  createPagination (topicsHook "find" (VObj [("total", VNum 15); ("skip", VNum 0)]))
  = Normal (topicsHook "find" (VObj [("total", VNum 15); ("skip", VNum 0)])).
Proof.
  apply (@createPagination_needs_all_three
           (topicsHook "find" (VObj [("total", VNum 15); ("skip", VNum 0)]))
           [("total", VNum 15); ("skip", VNum 0)] eq_refl).
  right. right. reflexivity.
Defined.

(** X4. [createPagination] can be run again on its own result without
    changing it, as the find loop does for every record of the page. *)
Theorem createPagination_idempotent
    (hook : Hook) (o : object) (skip limit total : Z) :
  result hook = VObj o ->
  lookup "skip" o = Some (VNum skip) ->
  lookup "limit" o = Some (VNum limit) ->
  lookup "total" o = Some (VNum total) ->
  exists hook',
    createPagination hook = Normal hook' /\
    createPagination hook' = Normal hook'.
Proof.
  intros Hres Hs Hl Ht.
  set (l := VObj (paginationLinks (path hook) skip limit total)).
  exists (with_result hook (VObj (put "links" l o))).
  split; [now apply createPagination_defined|].
  rewrite (@createPagination_defined
             (with_result hook (VObj (put "links" l o)))
             (put "links" l o) skip limit total eq_refl);
    try (rewrite lookup_put_other by discriminate; assumption).
  cbn [with_result path method service]. fold l. now rewrite put_put.
Qed.

Lemma createPagination_idempotent_witness :
  exists hook',
    createPagination (topicsHook "find" (page 2 2 15)) = Normal hook' /\
    createPagination hook' = Normal hook'.
Proof.
  exact (@createPagination_idempotent
           (topicsHook "find" (page 2 2 15))
           [("total", VNum 15); ("limit", VNum 2); ("skip", VNum 2)] 2 2 15
           eq_refl eq_refl eq_refl eq_refl).
Defined.

(** X5. The offset of the [last] link, for a positive [limit] and
    numbers that are held exactly: the greatest multiple of [limit] that
    is not above [total].  When [limit] divides [total] the [last] link
    therefore asks for [$skip = total], the page after the last record. *)
Theorem last_link_offset (p : string) (skip limit total : Z) :
  safeInteger skip -> safeInteger limit -> safeInteger total ->
  safeInteger (skip + limit) ->
  0 < limit -> skip + limit < total ->
  exists n,
    lookup "last" (paginationLinks p skip limit total)
    = Some (VStr ("/" ++ p ++ "?$skip=" ++ string_of_Z n)) /\
    total - limit < n <= total /\
    n mod limit = 0 /\
    (total mod limit = 0 -> n = total).
Proof.
  intros _ _ _ _ Hlimit Hlast. exists (total / limit * limit).
  destruct (paginationLinks_emitted p skip limit total) as (_ & _ & _ & [Hl _]).
  split.
  - rewrite (Hl Hlast). unfold lastSkip.
    destruct (Z.eqb_spec limit 0); [lia | reflexivity].
  - pose proof (Z.div_mod total limit ltac:(lia)) as Hdm.
    pose proof (Z.mod_pos_bound total limit Hlimit) as Hb.
    split; [nia|]. split; [apply Z.mod_mul; lia|].
    intros Hz. rewrite Hz in Hdm. lia.
Qed.

Lemma last_link_offset_witness :
  exists n,
    lookup "last" (paginationLinks "topics" 0 2 4)
    = Some (VStr ("/topics?$skip=" ++ string_of_Z n)) /\ n = 4.
Proof.
  assert (Hsafe : forall n, 0 <= n <= 4 -> safeInteger n)
    by (unfold safeInteger, MAX_SAFE_INTEGER; lia).
  destruct (@last_link_offset "topics" 0 2 4
              (Hsafe 0 ltac:(lia)) (Hsafe 2 ltac:(lia)) (Hsafe 4 ltac:(lia))
              (Hsafe (0 + 2) ltac:(lia)) ltac:(lia) ltac:(lia))
    as (n & Hlink & _ & _ & Hdiv).
  exists n. split; [exact Hlink | exact (Hdiv eq_refl)].
Defined.

(** X6. On a page that begins inside the first one ([0 < skip < limit],
    numbers that are held exactly, as is [skip + limit]) the [prev] link
    is emitted and asks for the negative offset [skip - limit], and no
    [first] link is emitted. *)
Theorem prev_link_negative_offset (p : string) (skip limit total : Z) :
  safeInteger skip -> safeInteger limit -> safeInteger total ->
  safeInteger (skip + limit) ->
  0 < skip -> skip < limit ->
  lookup "prev" (paginationLinks p skip limit total)
  = Some (VStr ("/" ++ p ++ "?$skip=" ++ string_of_Z (skip - limit))) /\
  skip - limit < 0 /\
  lookup "first" (paginationLinks p skip limit total) = None.
Proof.
  intros _ _ _ _ Hpos Hlt.
  destruct (paginationLinks_emitted p skip limit total)
    as ([_ Hfirst] & _ & [Hprev _] & _).
  split; [apply Hprev; lia|]. split; [lia | apply Hfirst; lia].
Qed.

Lemma prev_link_negative_offset_witness :
  lookup "prev" (paginationLinks "topics" 1 2 15)
  = Some (VStr "/topics?$skip=-1").
Proof.
  assert (Hsafe : forall n, 0 <= n <= 15 -> safeInteger n)
    by (unfold safeInteger, MAX_SAFE_INTEGER; lia).
  destruct (@prev_link_negative_offset "topics" 1 2 15
              (Hsafe 1 ltac:(lia)) (Hsafe 2 ltac:(lia)) (Hsafe 15 ltac:(lia))
              (Hsafe (1 + 2) ltac:(lia)) ltac:(lia) ltac:(lia))
    as [Hprev _].
  exact Hprev.
Defined.

(** ** [removeDuplicateRecords] *)

Lemma filed_keys (collection : list value) (k : string) :
  In k (map fst (file_all collection [])) <-> In k (map idKey collection).
Proof.
  rewrite lookup_in_keys, lookup_file_all, in_map_iff. split.
  - destruct (last_with k collection) as [x|] eqn:E; [intros _ | now simpl].
    destruct (last_with_key _ _ E) as [Hk Hin]. now exists x.
  - intros (x & <- & Hin). destruct (last_with_some _ _ Hin) as [y ->].
    discriminate.
Qed.

Lemma removeDuplicateRecords_length (collection : list value) :
  Forall is_resource collection ->
  exists unique,
    removeDuplicateRecords collection = Normal unique /\
    List.length unique
    = List.length (map fst (file_all (filed collection) [])).
Proof.
  intros Hall. eexists. split; [now apply removeDuplicateRecords_files|].
  rewrite length_map. apply Permutation_length, own_keys_perm.
Qed.

(** X7. [removeDuplicateRecords] never returns more records than it is
    given; when no record has the [id] [__proto__], it returns as many
    exactly when no two records of the input have the same [id]. *)
Theorem removeDuplicateRecords_drops_only_duplicates (collection : list value) :
  Forall is_resource collection ->
  exists unique,
    removeDuplicateRecords collection = Normal unique /\
    (List.length unique <= List.length collection)%nat /\
    (Forall (fun x => idKey x <> "__proto__") collection ->
     (List.length unique = List.length collection
      <-> NoDup (map idKey collection))).
Proof.
  intros Hall.
  destruct (removeDuplicateRecords_length Hall) as (unique & Hrun & Hlen).
  exists unique. split; [exact Hrun|]. rewrite Hlen.
  set (ks := map fst (file_all (filed collection) [])).
  assert (Hnd : NoDup ks) by (apply NoDup_keys_file_all; constructor).
  assert (Hsub : incl ks (map idKey (filed collection)))
    by (intros k Hk; now apply filed_keys).
  pose proof (NoDup_incl_length Hnd Hsub) as Hle. rewrite length_map in Hle.
  split.
  { pose proof (filter_length_le (fun x => negb (String.eqb (idKey x) "__proto__"))
                  collection) as Hfl.
    fold (filed collection) in Hfl. lia. }
  intros Hown. subst ks. rewrite (filed_all Hown) in *.
  set (ks := map fst (file_all collection [])) in *.
  assert (Hsup : incl (map idKey collection) ks)
    by (intros k Hk; now apply filed_keys).
  split.
  - intros Heq. apply (NoDup_incl_NoDup Hnd); [|exact Hsub].
    rewrite length_map. lia.
  - intros Hnd'. pose proof (NoDup_incl_length Hnd' Hsup) as Hge.
    rewrite length_map in Hge. lia.
Qed.

Lemma removeDuplicateRecords_drops_only_duplicates_witness :
  exists unique,
    removeDuplicateRecords
      [VObj [("id", VStr "sports")]; VObj [("id", VStr "games")];
       VObj [("id", VStr "sports")]] = Normal unique /\
    (List.length unique <= 3)%nat.
Proof.
  destruct (@removeDuplicateRecords_drops_only_duplicates
              [VObj [("id", VStr "sports")]; VObj [("id", VStr "games")];
               VObj [("id", VStr "sports")]])
    as (unique & Hrun & Hle & _).
  - repeat constructor; eexists; reflexivity.
  - exists unique. split; [exact Hrun | exact Hle].
Defined.

Lemma put_new (k : string) (v : value) (o : object) :
  lookup k o = None -> put k v o = (o ++ [(k, v)])%list.
Proof.
  induction o as [|[k' v'] o IH]; simpl; [reflexivity|].
  destruct (String.eqb k k'); [discriminate|]. intros H. now rewrite IH.
Qed.

Lemma file_all_distinct (collection : list value) (u : object) :
  NoDup (map idKey collection) ->
  (forall x, In x collection -> lookup (idKey x) u = None) ->
  file_all collection u
  = (u ++ map (fun x => (idKey x, x)) collection)%list.
Proof.
  revert u. induction collection as [|x xs IH]; intros u Hnd Hnew.
  - cbn. now rewrite app_nil_r.
  - inversion Hnd as [|? ? Hnotin Hnd']; subst.
    cbn [file_all fold_left]. fold (file_all xs (put (idKey x) x u)).
    rewrite put_new by (apply Hnew; now left).
    rewrite IH; [now rewrite <- app_assoc | exact Hnd' |].
    intros y Hy. assert (Hne : idKey y <> idKey x).
    { intros Heq. apply Hnotin. rewrite <- Heq. now apply in_map. }
    rewrite <- (@put_new (idKey x) x u (Hnew x (or_introl eq_refl))).
    rewrite lookup_put_other by exact Hne. apply Hnew. now right.
Qed.

Lemma index_names_none (names : list string) :
  (forall k, In k names -> array_index k = None) ->
  index_names names = [] /\ other_names names = names.
Proof.
  induction names as [|k names IH]; intros Hnone; [now split|].
  destruct IH as [Hi Ho]; [intros k' Hk'; apply Hnone; now right|].
  cbn [index_names other_names filter].
  rewrite (Hnone k (or_introl eq_refl)). fold (other_names names).
  now rewrite Hi, Ho.
Qed.

Lemma lookup_distinct (collection : list value) (x : value) :
  NoDup (map idKey collection) -> In x collection ->
  lookup (idKey x) (map (fun y => (idKey y, y)) collection) = Some x.
Proof.
  induction collection as [|y ys IH]; intros Hnd Hin; [contradiction|].
  inversion Hnd as [|? ? Hnotin Hnd']; subst. cbn [map lookup].
  destruct (String.eqb_spec (idKey x) (idKey y)) as [Heq | Hne].
  - destruct Hin as [-> | Hin]; [reflexivity|].
    exfalso. apply Hnotin. rewrite <- Heq. now apply in_map.
  - destruct Hin as [-> | Hin]; [contradiction | now apply IH].
Qed.

(** X8. A sequence of resource objects whose [id]s are distinct, are
    not array indices (not canonical numerals) and are not [__proto__]
    comes back from [removeDuplicateRecords] unchanged, in the same
    order. *)
Theorem removeDuplicateRecords_keeps_distinct (collection : list value) :
  Forall is_resource collection ->
  NoDup (map idKey collection) ->
  (forall x, In x collection -> array_index (idKey x) = None) ->
  Forall (fun x => idKey x <> "__proto__") collection ->
  removeDuplicateRecords collection = Normal collection.
Proof.
  intros Hall Hnd Hnone Hown.
  rewrite (removeDuplicateRecords_files Hall), (filed_all Hown).
  rewrite (@file_all_distinct collection [] Hnd) by reflexivity. cbn [app].
  assert (Hkeys : map fst (map (fun y => (idKey y, y)) collection)
                  = map idKey collection) by (now rewrite map_map).
  unfold own_keys. rewrite Hkeys.
  destruct (index_names_none (map idKey collection)) as [-> ->].
  { intros k Hk. apply in_map_iff in Hk as (x & <- & Hx). now apply Hnone. }
  cbn [map app]. rewrite map_map. f_equal.
  rewrite <- (map_id collection) at 2. apply map_ext_in.
  intros x Hx. now rewrite (@lookup_distinct collection x Hnd Hx).
Qed.

Lemma removeDuplicateRecords_keeps_distinct_witness :
  removeDuplicateRecords
    [VObj [("id", VStr "sports")]; VObj [("id", VStr "games")]]
  = Normal [VObj [("id", VStr "sports")]; VObj [("id", VStr "games")]].
Proof.
  apply removeDuplicateRecords_keeps_distinct.
  - repeat constructor; eexists; reflexivity.
  - repeat constructor; simpl; intuition discriminate.
  - intros x [<- | [<- | []]]; reflexivity.
  - repeat constructor; discriminate.
Defined.

Lemma forEach_throws {A S : Type} (f : S -> A -> outcome S)
    (before after : list A) (x : A) (s s' : S) (e : error) :
  forEach f before s = Normal s' -> f s' x = Throw e ->
  forEach f (before ++ x :: after) s = Throw e.
Proof.
  revert s. induction before as [|y ys IH]; intros s; cbn [forEach app].
  - intros [= ->] Hx. now rewrite Hx.
  - destruct (f s y) as [s1| |]; cbn [bind]; try discriminate. apply IH.
Qed.

(** X9. A [null] or [undefined] entry makes [removeDuplicateRecords]
    throw a [TypeError], whatever comes after it. *)
Theorem removeDuplicateRecords_null_entry
    (before after : list value) (x : value) :
  Forall is_resource before ->
  x = VNull \/ x = VUndefined ->
  removeDuplicateRecords (before ++ x :: after) = Throw TypeError.
Proof.
  intros Hall Hx. unfold removeDuplicateRecords.
  erewrite forEach_throws;
    [reflexivity | exact (forEach_files [] Hall) |].
  now destruct Hx as [-> | ->].
Qed.

Lemma removeDuplicateRecords_null_entry_witness :
  removeDuplicateRecords [VObj [("id", VStr "sports")]; VNull]
  = Throw TypeError.
Proof.
  apply (@removeDuplicateRecords_null_entry
           [VObj [("id", VStr "sports")]] [] VNull).
  - repeat constructor. eexists; reflexivity.
  - now left.
Defined.

(** ** [serializePlainObject] and the find entry point on plain records *)

Lemma attributes_loop (o : object) (names : list string) (attrs : object) :
  forEach (fun (attrs : object) key =>
             x <- get (VObj o) key ;;
             Normal (put (dasherize key) x attrs)) names attrs
  = Normal (renamed names attrs o).
Proof.
  revert attrs. induction names as [|k names IH]; intros attrs; [reflexivity|].
  cbn [forEach]. rewrite get_object_normal. cbn [bind]. now rewrite IH.
Qed.



Lemma serializePlainObject_object
    (stringify : value -> value) (digest : string -> string)
    (o so : object) (opts : Options) (hook : Hook) (text : string) :
  options (service hook) = VObj so ->
  stringify (VObj o) = VStr text ->
  exists id type,
    serializePlainObject stringify digest (VObj o) opts hook
    = Normal (VObj [("id", id); ("type", type);
                    ("attributes", VObj (renamed (attributeKeys opts o) [] o));
                    ("links", VObj [("self", VStr ("/" ++ path hook ++ "/"
                                                   ++ to_string id))])]).
Proof.
  intros Hso Htext. unfold serializePlainObject, generateFauxId.
  destruct (plain_type_total o opts hook Hso) as [type Htype].
  destruct (option_set (identifierKey opts)).
  - rewrite get_object_normal. cbn [bind]. rewrite Htype. cbn [bind].
    rewrite keys_of_object. cbn [bind]. fold (attributeKeys opts o).
    rewrite attributes_loop. cbn [bind]. eauto.
  - rewrite Htext. cbn [bind]. rewrite Htype. cbn [bind].
    rewrite keys_of_object. cbn [bind]. fold (attributeKeys opts o).
    rewrite attributes_loop. cbn [bind]. eauto.
Qed.




Lemma mapM_total {A B : Type} (f : A -> outcome B) (xs : list A) :
  (forall x, In x xs -> exists y, f x = Normal y) ->
  exists ys, mapM f xs = Normal ys /\
             Forall2 (fun x y => f x = Normal y) xs ys.
Proof.
  induction xs as [|x xs IH]; intros Hall.
  - exists []. split; [reflexivity | constructor].
  - destruct (Hall x (or_introl eq_refl)) as [y Hy].
    destruct IH as (ys & Hys & Hall2); [intros x' Hx'; apply Hall; now right|].
    exists (y :: ys). cbn [mapM]. rewrite Hy. cbn [bind]. rewrite Hys.
    split; [reflexivity | now constructor].
Qed.

(** X11. On a service without a model, the find entry point turns a
    sequence of two records or more into as many resource objects, in the
    order of the records: each is what [serializePlainObject] gives for
    the record at its place. *)
Theorem jsonapifyViaFind_plain_sequence
    (stringify : value -> value) (digest : string -> string)
    (z : string -> value -> string -> list string -> object)
    (m p : string) (so : object) (opts : Options)
    (first second : object) (others : list object) :
  let records := first :: second :: others in
  let hook := plainHook m p (VObj so) in
  (forall o, In o records -> exists text, stringify (VObj o) = VStr text) ->
  exists serialized,
    jsonapifyViaFind stringify digest z (hook (VArr (map VObj records))) opts
    = Normal (hook (VObj [("data", VArr serialized)])) /\
    Forall2 (fun o resource =>
               serializePlainObject stringify digest (VObj o) opts
                 (hook (VArr (map VObj records))) = Normal resource)
            records serialized.
Proof.
  intros records hook Htext.
  destruct (@mapM_total _ _
              (fun item => serializePlainObject stringify digest item opts
                             (hook (VArr (map VObj records))))
              (map VObj records)) as (serialized & Hrun & Hall).
  { intros item Hin. apply in_map_iff in Hin as (o & <- & Ho).
    destruct (Htext o Ho) as [text Ht].
    destruct (@serializePlainObject_object stringify digest o so opts
                (hook (VArr (map VObj records))) text eq_refl Ht)
      as (id & type & Hser).
    eauto. }
  exists serialized. split.
  - unfold jsonapifyViaFind, hook, records. cbn [plainHook Model service result map].
    cbn [map] in Hrun. unfold hook, records in Hrun. cbn [plainHook map] in Hrun.
    rewrite Hrun. reflexivity.
  - clear Hrun Htext. revert Hall.
    generalize (hook (VArr (map VObj records))) as h.
    generalize serialized as ys. generalize records as rs.
    induction rs as [|r rs IH]; intros ys h Hall; inversion Hall; subst;
      constructor; auto.
Qed.

Lemma jsonapifyViaFind_plain_sequence_witness :
  exists serialized,
    jsonapifyViaFind referenceStringify referenceDigest referenceSerializer
      (personHook "find"
         (VArr [VObj [("firstName", VStr "Joel")];
                VObj [("firstName", VStr "Alejandro")]])) noOptions
    = Normal (personHook "find" (VObj [("data", VArr serialized)])) /\
    List.length serialized = 2%nat.
Proof.
  destruct (@jsonapifyViaFind_plain_sequence
              referenceStringify referenceDigest referenceSerializer
              "find" "person" [("name", VStr "person")] noOptions
              [("firstName", VStr "Joel")] [("firstName", VStr "Alejandro")] [])
    as (serialized & Hrun & Hall).
  - intros o _. eexists. reflexivity.
  - exists serialized. split; [exact Hrun|].
    apply Forall2_length in Hall. now rewrite <- Hall.
Defined.

(** ** The attribute list of [jsonapify] *)

Lemma byExcluded_single (pk : option string) (k : string) :
  byExcluded [pk] k = true <-> pk <> Some k.
Proof.
  unfold byExcluded. cbn [existsb]. rewrite orb_false_r, negb_true_iff.
  destruct pk as [x|]; [|split; [discriminate | reflexivity]].
  destruct (String.eqb_spec x k) as [-> | Hne]; split; congruence.
Qed.

Lemma first_of_filter {A : Type} (f : A -> bool) (l : list A) (x : A) :
  hd_error (filter f l) = Some x ->
  exists before after,
    l = (before ++ x :: after)%list /\
    forall y, In y before -> f y = false.
Proof.
  induction l as [|y l IH]; cbn [filter]; [discriminate|].
  destruct (f y) eqn:Hy; cbn [hd_error].
  - intros [= ->]. exists [], l. split; [reflexivity | intros ? []].
  - intros H. destruct (IH H) as (before & after & -> & Hb).
    exists (y :: before), after. split; [reflexivity|].
    intros z [<- | Hz]; [exact Hy | now apply Hb].
Qed.

(** X12. The attribute names that [jsonapify] hands to the serializer are
    [relationships] and every attribute of the model except the identity
    attribute.  The identity attribute is the first attribute flagged as
    primary key: it is flagged and no attribute listed before it is; an
    attribute flagged after it is handed over like any other; and there
    is no identity attribute exactly when no attribute is flagged. *)
Theorem serializedAttributes_membership (model : SequelizeModel) :
  (forall k,
      In k (serializedAttributes model) <->
      k = "relationships" \/
      (In k (map fst (attributes model)) /\ idAttribute model <> Some k)) /\
  (forall pk,
      idAttribute model = Some pk ->
      byPrimaryKey model pk = true /\ In pk (map fst (attributes model)) /\
      exists before after,
        map fst (attributes model) = (before ++ pk :: after)%list /\
        forall k, In k before -> byPrimaryKey model k = false) /\
  (idAttribute model = None <->
   forall k, In k (map fst (attributes model)) -> byPrimaryKey model k = false).
Proof.
  split; [|split].
  - intros k. unfold serializedAttributes.
    rewrite in_app_iff, filter_In, byExcluded_single. cbn [In].
    intuition congruence.
  - intros pk Hpk. unfold idAttribute in Hpk.
    pose proof (first_of_filter _ _ Hpk) as Hfirst.
    destruct (filter (byPrimaryKey model) (map fst (attributes model)))
      as [|k ks] eqn:Hf; [discriminate|].
    injection Hpk as ->.
    assert (Hin : In pk (filter (byPrimaryKey model) (map fst (attributes model))))
      by (rewrite Hf; now left).
    apply filter_In in Hin. tauto.
  - unfold idAttribute.
    destruct (filter (byPrimaryKey model) (map fst (attributes model)))
      as [|k ks] eqn:Hf; cbn [hd_error].
    + split; [intros _ k Hk | reflexivity].
      destruct (byPrimaryKey model k) eqn:Hb; [|reflexivity].
      assert (Hin : In k (filter (byPrimaryKey model)
                            (map fst (attributes model))))
        by (apply filter_In; now split).
      rewrite Hf in Hin. contradiction.
    + split; [discriminate|]. intros Hall. exfalso.
      assert (Hin : In k (filter (byPrimaryKey model)
                            (map fst (attributes model))))
        by (rewrite Hf; now left).
      apply filter_In in Hin as [Hin Hb]. rewrite (Hall k Hin) in Hb.
      discriminate Hb.
Qed.

(** ** The key of a relationship *)

Lemma underscores_to_dashes_clean (s : string) :
  has_underscore (underscores_to_dashes s) = false.
Proof.
  induction s as [|c s IH]; [reflexivity|].
  cbn [underscores_to_dashes has_underscore]. rewrite IH.
  destruct (Ascii.eqb c "_") eqn:E; [reflexivity | now rewrite E].
Qed.

Lemma underscores_to_dashes_unchanged (s : string) :
  has_underscore s = false -> underscores_to_dashes s = s.
Proof.
  induction s as [|c s IH]; [reflexivity|].
  cbn [underscores_to_dashes has_underscore]. intros H.
  apply orb_false_iff in H as [Hc Hs]. now rewrite Hc, (IH Hs).
Qed.

(** X13. The key under which a relationship is recorded.  For an
    association that is not underscored it is the [as] name.  For an
    underscored one it is the [as] name with every underscore turned into
    a dash: it has no underscore and the same length, and a name that has
    no underscore, capitals or not, is kept as it is. *)
Theorem relationshipName_dashes (include : Include) :
  (underscored (association include) = false ->
   relationshipName include = as_ include) /\
  (underscored (association include) = true ->
   has_underscore (relationshipName include) = false /\
   String.length (relationshipName include) = String.length (as_ include) /\
   (has_underscore (as_ include) = false ->
    relationshipName include = as_ include)).
Proof.
  unfold relationshipName. split; intros ->; [reflexivity|].
  split; [apply underscores_to_dashes_clean|]. split.
  - induction (as_ include) as [|c s IH]; [reflexivity|].
    cbn [underscores_to_dashes String.length]. now rewrite IH.
  - apply underscores_to_dashes_unchanged.
Qed.

Lemma relationshipName_dashes_witness :
  relationshipName
    {| as_ := "parentTopic"; model := topics;
       association := {| targetKey := Some "id";
                         foreignKey := Some "parent_topic_id";
                         underscored := true |} |}
  = "parentTopic".
Proof.
  destruct (relationshipName_dashes
              {| as_ := "parentTopic"; model := topics;
                 association := {| targetKey := Some "id";
                                   foreignKey := Some "parent_topic_id";
                                   underscored := true |} |}) as [_ Hdash].
  destruct (Hdash eq_refl) as (_ & _ & Hkeep). exact (Hkeep eq_refl).
Defined.

(** ** Records that reach the assembler as text *)





(** ** The get entry point: edges *)

(** X15. On a service with a model, the get entry point throws a
    [TypeError] for a record that carries no [$options] (the options of a
    Sequelize instance): [jsonapify] reads [include] of [undefined]. *)
Theorem jsonapifyViaGet_without_options
    (stringify : value -> value) (digest : string -> string)
    (z : string -> value -> string -> list string -> object)
    (hook : Hook) (opts : Options) (sm : SequelizeModel) (o : object)
    (text : string) :
  Model (service hook) = Some sm ->
  result hook = VObj o ->
  stringify (VObj o) = VStr text ->
  lookup "$options" o = None ->
  jsonapifyViaGet stringify digest z hook opts = Throw TypeError.
Proof.
  intros Hm Hres Htext Hopt. unfold jsonapifyViaGet.
  rewrite Hm, Hres, Htext.
  change (get (VStr text) "id") with (@Normal value VUndefined).
  cbn [bind]. rewrite get_object_normal, Hopt. reflexivity.
Qed.

Lemma jsonapifyViaGet_without_options_witness :
  jsonapifyViaGet referenceStringify referenceDigest referenceSerializer
    (topicsHook "get" (VObj [("id", VStr "sports")])) noOptions
  = Throw TypeError.
Proof.
  exact (@jsonapifyViaGet_without_options
           referenceStringify referenceDigest referenceSerializer
           (topicsHook "get" (VObj [("id", VStr "sports")])) noOptions topics
           [("id", VStr "sports")] "[object Object]"
           eq_refl eq_refl eq_refl eq_refl).
Defined.

(** X16. On a service without a model, the get entry point keeps every
    field of the record at the top of the result: it only sets [data], to
    the resource object of the record. *)
Theorem jsonapifyViaGet_plain_keeps_fields
    (stringify : value -> value) (digest : string -> string)
    (z : string -> value -> string -> list string -> object)
    (hook : Hook) (opts : Options) (o so : object) (text : string) :
  Model (service hook) = None ->
  result hook = VObj o ->
  options (service hook) = VObj so ->
  stringify (VObj o) = VStr text ->
  exists o' resource,
    jsonapifyViaGet stringify digest z hook opts
    = Normal (with_result hook (VObj o')) /\
    serializePlainObject stringify digest (VObj o) opts hook = Normal resource /\
    lookup "data" o' = Some resource /\
    (forall k, k <> "data" -> lookup k o' = lookup k o).
Proof.
  intros Hm Hres Hso Htext.
  destruct (@serializePlainObject_object stringify digest o so opts hook text
              Hso Htext) as (id & type & Hser).
  unfold jsonapifyViaGet. rewrite Hm, Hres, Hser. cbn [bind set].
  eexists. eexists. split; [reflexivity|]. split; [reflexivity|].
  split; [apply lookup_put_same|].
  intros k Hk. now apply lookup_put_other.
Qed.

Lemma jsonapifyViaGet_plain_keeps_fields_witness :
  exists o' resource,
    jsonapifyViaGet referenceStringify referenceDigest referenceSerializer
      (personHook "get" (VObj [("firstName", VStr "Joel")])) noOptions
    = Normal (with_result (personHook "get" (VObj [("firstName", VStr "Joel")]))
                (VObj o')) /\
    lookup "data" o' = Some resource /\
    lookup "firstName" o' = Some (VStr "Joel").
Proof.
  destruct (@jsonapifyViaGet_plain_keeps_fields
              referenceStringify referenceDigest referenceSerializer
              (personHook "get" (VObj [("firstName", VStr "Joel")])) noOptions
              [("firstName", VStr "Joel")] [("name", VStr "person")]
              "[object Object]" eq_refl eq_refl eq_refl eq_refl)
    as (o' & resource & Hrun & _ & Hdata & Hkeep).
  exists o', resource. split; [exact Hrun|]. split; [exact Hdata|].
  rewrite Hkeep by discriminate. reflexivity.
Defined.

(** ** The find entry point of a service with a model: edges *)

Lemma createMetadata_keeps (hook : Hook) (o : object) :
  result hook = VObj o ->
  exists o',
    createMetadata hook = Normal (with_result hook (VObj o')) /\
    forall k, In k ["data"; "included"; "links"] -> lookup k o' = lookup k o.
Proof.
  intros Hres. rewrite (createMetadata_object _ Hres).
  pose proof (metaKeys_spec o) as Hspec.
  destruct (metaKeys o) as [|k0 names].
  - exists o. rewrite <- Hres, with_result_same. now split.
  - eexists. split; [reflexivity|]. intros k Hk.
    assert (Hd : is_document_key k = true /\ k <> "meta")
      by (destruct Hk as [Hk | [Hk | [Hk | []]]]; subst k;
          (split; [reflexivity | discriminate])).
    destruct Hd as [Hd Hne]. rewrite lookup_put_other by exact Hne.
    apply lookup_strip_out. intros Hin. apply Hspec in Hin as [_ Hd'].
    congruence.
Qed.

(** X17. On a service with a model, a find result whose [data] is an
    empty sequence gets no pagination links, whatever [skip], [limit] and
    [total] say: the links are made while the records are walked.  The
    result keeps its [data] and its [links] and has no [included]. *)
Theorem jsonapifyViaFind_empty_page
    (stringify : value -> value) (digest : string -> string)
    (z : string -> value -> string -> list string -> object)
    (hook : Hook) (opts : Options) (sm : SequelizeModel) (o : object) :
  Model (service hook) = Some sm ->
  result hook = VObj o ->
  lookup "data" o = Some (VArr []) ->
  exists o',
    jsonapifyViaFind stringify digest z hook opts
    = Normal (with_result hook (VObj o')) /\
    lookup "links" o' = lookup "links" o /\
    lookup "data" o' = Some (VArr []) /\
    lookup "included" o' = None.
Proof.
  intros Hm Hres Hdata. unfold jsonapifyViaFind. rewrite Hm, Hres.
  cbn [set bind]. rewrite get_object_normal.
  rewrite lookup_put_other by discriminate. rewrite Hdata.
  cbn [bind forEach with_result result]. rewrite get_object_normal.
  rewrite lookup_put_same. cbn [bind delete].
  set (o1 := remove "included" (put "included" (VArr []) o)).
  destruct (@createMetadata_keeps
              (with_result hook (VObj o1)) o1 eq_refl) as (o' & Hrun & Hkeep).
  exists o'. split; [exact Hrun|].
  rewrite !Hkeep by (cbn; auto). unfold o1.
  rewrite !lookup_remove_other by discriminate.
  rewrite !lookup_put_other by discriminate.
  split; [reflexivity|]. split; [exact Hdata | apply lookup_remove_same].
Qed.

Lemma jsonapifyViaFind_empty_page_witness :
  exists o',
    jsonapifyViaFind referenceStringify referenceDigest referenceSerializer
      (topicsHook "find"
         (VObj [("total", VNum 15); ("limit", VNum 2); ("skip", VNum 20);
                ("data", VArr [])])) noOptions
    = Normal (topicsHook "find" (VObj o')) /\
    lookup "links" o' = None.
Proof.
  destruct (@jsonapifyViaFind_empty_page
              referenceStringify referenceDigest referenceSerializer
              (topicsHook "find"
                 (VObj [("total", VNum 15); ("limit", VNum 2); ("skip", VNum 20);
                        ("data", VArr [])])) noOptions topics
              [("total", VNum 15); ("limit", VNum 2); ("skip", VNum 20);
               ("data", VArr [])] eq_refl eq_refl eq_refl)
    as (o' & Hrun & Hlinks & _).
  exists o'. split; [exact Hrun | exact Hlinks].
Defined.

(** X18. On a service with a model, the find entry point throws a
    [TypeError] for a result object that has no [data], or whose [data] is
    [null], a number, a string or an object: it calls [forEach] on it. *)
Theorem jsonapifyViaFind_without_data
    (stringify : value -> value) (digest : string -> string)
    (z : string -> value -> string -> list string -> object)
    (hook : Hook) (opts : Options) (sm : SequelizeModel) (o : object) :
  Model (service hook) = Some sm ->
  result hook = VObj o ->
  (forall items, lookup "data" o <> Some (VArr items)) ->
  (forall context, lookup "data" o <> Some (VHost context)) ->
  jsonapifyViaFind stringify digest z hook opts = Throw TypeError.
Proof.
  intros Hm Hres Harr Hhost. unfold jsonapifyViaFind. rewrite Hm, Hres.
  cbn [set bind]. rewrite get_object_normal.
  rewrite lookup_put_other by discriminate.
  destruct (lookup "data" o) as [[| | | | |items| |c]|]; cbn [bind];
    try reflexivity.
  - now destruct (Harr items).
  - now destruct (Hhost c).
Qed.

Lemma jsonapifyViaFind_without_data_witness :
  jsonapifyViaFind referenceStringify referenceDigest referenceSerializer
    (topicsHook "find" (VObj [("id", VStr "sports")])) noOptions
  = Throw TypeError.
Proof.
  apply (@jsonapifyViaFind_without_data
           referenceStringify referenceDigest referenceSerializer
           (topicsHook "find" (VObj [("id", VStr "sports")])) noOptions topics
           [("id", VStr "sports")] eq_refl eq_refl); discriminate.
Defined.

(** ** The relationship resolver on an embedded record *)



Lemma assign_undefined (acc : object) : assign acc VUndefined = Normal acc.
Proof. reflexivity. Qed.







(** ** The assembler with one association *)



(** X22. The [related] property of the result of [jsonapify] is never an
    empty sequence: it is absent when no record was included, and it is
    absent whenever the include list of the context is empty or absent. *)
Theorem jsonapify_related_nonempty
    (z : string -> value -> string -> list string -> object)
    (data : value) (model : SequelizeModel) (selfUrl : string) (context : value)
    (r : Jsonapified) :
  jsonapify z data model selfUrl context = Normal r ->
  related r <> Some [] /\
  (context_include context = Normal [] -> related r = None).
Proof.
  unfold jsonapify, jsonapify_with.
  destruct (context_include context) as [includes| |]; cbn [bind];
    try discriminate.
  destruct (forEach (parseRelationships z) includes (data, []))
    as [[data' includedData]| |] eqn:Hloop; cbn [bind]; try discriminate.
  destruct (hoistRelationships _) as [json| |]; cbn [bind]; try discriminate.
  rewrite !get_object_normal. cbn [bind]. intros [= <-]. cbn [related]. split.
  - now destruct includedData.
  - intros [= ->]. cbn [forEach] in Hloop. now injection Hloop as _ <-.
Qed.

Lemma jsonapify_related_nonempty_witness :
  exists r,
    jsonapify referenceSerializer (VObj [("label", VStr "rocq")]) tags
              "tags/undefined" noInclude = Normal r /\
    related r = None.
Proof.
  exists {| document :=
              VObj [("type", VStr "tags");
                    ("attributes", VObj [("label", VStr "rocq")])];
            links := VObj [("self", VStr "/tags/undefined")];
            related := None |}.
  split; [reflexivity|].
  destruct (@jsonapify_related_nonempty
              referenceSerializer (VObj [("label", VStr "rocq")]) tags
              "tags/undefined" noInclude
              {| document :=
                   VObj [("type", VStr "tags");
                         ("attributes", VObj [("label", VStr "rocq")])];
                 links := VObj [("self", VStr "/tags/undefined")];
                 related := None |} eq_refl) as [_ Hnone].
  exact (Hnone eq_refl).
Defined.

(** ** The first version of [jsonapify] *)



(** ** The find entry point of a service with a model: the first record *)


